(** * Juno Montera real-estate agent: request building and response handling

    A shallow embedding of [src/agent.py]: the two operations of
    [JunoMonteraRealEstateAgent], [find_properties] and
    [get_location_trends], as programs over the two hosted backends they
    call (the extraction backend [self.firecrawl.extract] and the
    summarization backend [self.agent.run]).

    Python values are an inductive type, a [str] is the [string] of its
    UTF-8 bytes, exceptions are an error result, and Python's own text
    functions (the rendering of an f-string field, the Unicode-aware
    [str.lower]) are taken as given.  The calls to the backends are the
    constructors of
    a small program monad that an interpreter runs against a world,
    recording the requests it issues.  The form script ([main],
    [initialize_agent]) is one run over the session state: the widgets'
    values come in as a record, the rendered elements go out as a list. *)

From Stdlib Require Import String Ascii List Bool ZArith Lia Floats.
From ExtLib Require Import Structures.Monad.
Import ListNotations.
Import MonadNotation.
Local Open Scope list_scope.
Local Open Scope string_scope.
Local Open Scope monad_scope.

(** ** Python values *)

Module Py.

(** The values an extraction response is made of.  A [dict] keeps its
    items in insertion order, keyed by [str]. *)
#[warnings="-register-all"]
Inductive pyval : Type :=
| PNone
| PBool (b : bool)
| PInt (z : Z)
| PFloat (f : float)
| PStr (s : string)
| PList (l : list pyval)
| PDict (d : list (string * pyval)).

Inductive exn : Type :=
| KeyError (key : string)
| TypeError (msg : string)
| AttributeError (attr : string)
| ValueError (msg : string)
| BackendError (msg : string).

Inductive result (A : Type) : Type :=
| Ok (a : A)
| Raise (e : exn).
Arguments Ok {A} a.
Arguments Raise {A} e.

Definition result_map {A B : Type} (f : A -> B) (r : result A) : result B :=
  match r with
  | Ok a => Ok (f a)
  | Raise e => Raise e
  end.

(** [bool(v)]. *)
Definition truthy (v : pyval) : bool :=
  match v with
  | PNone => false
  | PBool b => b
  | PInt z => negb (Z.eqb z 0)
  | PFloat f => negb (PrimFloat.eqb f 0%float)
  | PStr s => negb (String.eqb s "")
  | PList l => match l with [] => false | _ :: _ => true end
  | PDict d => match d with [] => false | _ :: _ => true end
  end.

(** [isinstance(v, dict)]. *)
Definition isinstance_dict (v : pyval) : bool :=
  match v with
  | PDict _ => true
  | _ => false
  end.

(** Item lookup in a [dict]. *)
Fixpoint lookup (d : list (string * pyval)) (key : string) : option pyval :=
  match d with
  | [] => None
  | (k, v) :: rest => if String.eqb k key then Some v else lookup rest key
  end.

(** [d.get(key, default)] on a [dict]. *)
Definition dict_get (d : list (string * pyval)) (key : string)
    (default : pyval) : pyval :=
  match lookup d key with
  | Some v => v
  | None => default
  end.

(** [v[key]] with a [str] key: item access on a [dict], [TypeError] on
    every other value of the model. *)
Definition subscript (v : pyval) (key : string) : result pyval :=
  match v with
  | PDict d =>
      match lookup d key with
      | Some x => Ok x
      | None => Raise (KeyError key)
      end
  | _ => Raise (TypeError "subscript")
  end.

(** [v.get(key, default)]: defined on a [dict], [AttributeError]
    on every other value of the model. *)
Definition method_get (v : pyval) (key : string) (default : pyval)
    : result pyval :=
  match v with
  | PDict d => Ok (dict_get d key default)
  | _ => Raise (AttributeError "get")
  end.

End Py.
Export Py.

(** ** Text *)

Module Text.

Definition nl : string := String (ascii_of_nat 10) EmptyString.

(** A byte that is one of the letters A-Z.  In UTF-8 such a byte occurs
    only as that letter itself, never inside the encoding of another
    character. *)
Definition is_ascii_capital (c : ascii) : bool :=
  let n := nat_of_ascii c in
  andb (Nat.leb 65 n) (Nat.leb n 90).

Definition ascii_lower_char (c : ascii) : ascii :=
  if is_ascii_capital c then ascii_of_nat (nat_of_ascii c + 32) else c.

(** Lower-casing of the letters A-Z, every other byte left as it is:
    what [str.lower] does on ASCII text, and on any text whose other
    characters it leaves unchanged. *)
Fixpoint ascii_lower (s : string) : string :=
  match s with
  | EmptyString => EmptyString
  | String c rest => String (ascii_lower_char c) (ascii_lower rest)
  end.

(** No character of [s] is one of the letters A-Z. *)
Fixpoint no_ascii_capital (s : string) : bool :=
  match s with
  | EmptyString => true
  | String c rest => andb (negb (is_ascii_capital c)) (no_ascii_capital rest)
  end.

(** [s.isascii()]: every byte is below 128. *)
Fixpoint is_ascii (s : string) : bool :=
  match s with
  | EmptyString => true
  | String c rest => andb (Nat.ltb (nat_of_ascii c) 128) (is_ascii rest)
  end.

(** What is used of Python's [str.lower]: on ASCII text it lower-cases
    the letters A-Z and nothing else, and its result never holds one of
    the letters A-Z. *)
Record python_lower (lower : string -> string) : Prop := {
  lower_on_ascii : forall s, is_ascii s = true -> lower s = ascii_lower s;
  lower_no_ascii_capital : forall s, no_ascii_capital (lower s) = true
}.
Arguments lower_on_ascii {lower} _ s _.
Arguments lower_no_ascii_capital {lower} _ s.

(** [needle in hay]. *)
Definition contains (needle hay : string) : Prop :=
  exists pre post : string, hay = pre ++ needle ++ post.

Fixpoint prefixb (p s : string) : bool :=
  match p, s with
  | EmptyString, _ => true
  | String a p', String b s' => andb (Ascii.eqb a b) (prefixb p' s')
  | String _ _, EmptyString => false
  end.

Fixpoint containsb (needle hay : string) : bool :=
  orb (prefixb needle hay)
      (match hay with
       | EmptyString => false
       | String _ rest => containsb needle rest
       end).

End Text.
Export Text.

(** ** Schema definitions *)

Module Schema.

Inductive field_type : Type :=
| TStr
| TFloat
| TBool
| TDict
| TListOf (model : string).

Record field : Type := {
  field_name : string;
  field_alias : option string;
  field_ty : field_type;
  field_description : option string
}.

Record model : Type := {
  model_name : string;
  model_doc : string;
  model_fields : list field
}.

Definition PropertyData : model := {|
  model_name := "PropertyData";
  model_doc := "Schema for property data extraction";
  model_fields :=
    [ {| field_name := "building_name"; field_alias := Some "Building_name";
         field_ty := TStr;
         field_description := Some "Name of the building/property" |};
      {| field_name := "property_type"; field_alias := Some "Property_type";
         field_ty := TStr;
         field_description :=
           Some "Type of property (commercial, residential, etc)" |};
      {| field_name := "location_address"; field_alias := None;
         field_ty := TStr;
         field_description := Some "Complete address of the property" |};
      {| field_name := "price"; field_alias := Some "Price";
         field_ty := TStr;
         field_description := Some "Price of the property" |};
      {| field_name := "description"; field_alias := Some "Description";
         field_ty := TStr;
         field_description :=
           Some "Detailed description of the property" |} ]
|}.

Definition PropertiesResponse : model := {|
  model_name := "PropertiesResponse";
  model_doc := "Schema for multiple properties response";
  model_fields :=
    [ {| field_name := "properties"; field_alias := None;
         field_ty := TListOf "PropertyData";
         field_description := Some "List of property details" |} ]
|}.

Definition LocationData : model := {|
  model_name := "LocationData";
  model_doc := "Schema for location price trends";
  model_fields :=
    [ {| field_name := "location"; field_alias := None;
         field_ty := TStr; field_description := None |};
      {| field_name := "price_per_sqft"; field_alias := None;
         field_ty := TFloat; field_description := None |};
      {| field_name := "percent_increase"; field_alias := None;
         field_ty := TFloat; field_description := None |};
      {| field_name := "rental_yield"; field_alias := None;
         field_ty := TFloat; field_description := None |} ]
|}.

Definition LocationsResponse : model := {|
  model_name := "LocationsResponse";
  model_doc := "Schema for multiple locations response";
  model_fields :=
    [ {| field_name := "locations"; field_alias := None;
         field_ty := TListOf "LocationData";
         field_description := Some "List of location data points" |} ]
|}.

(** The schema descriptor sent with a request, [M.model_json_schema()],
    is represented by the model [M] it is generated from. *)
Definition model_json_schema (m : model) : model := m.

End Schema.
Export Schema.

(** ** Programs over the two backends *)

Module Backend.

(** The [params] mapping of [firecrawl.extract]. *)
Record extract_params : Type := {
  prompt : string;
  schema : model
}.

(** The object [agent.run] returns; only [content] is read. *)
Record RunResponse : Type := {
  content : string
}.

Inductive prog (A : Type) : Type :=
| Ret (a : A)
| Throw (e : exn)
| FirecrawlExtract (urls : list string) (params : extract_params)
    (k : pyval -> prog A)
| AgentRun (message : string) (k : RunResponse -> prog A).
Arguments Ret {A} a.
Arguments Throw {A} e.
Arguments FirecrawlExtract {A} urls params k.
Arguments AgentRun {A} message k.

Fixpoint prog_bind {A B : Type} (p : prog A) (f : A -> prog B) : prog B :=
  match p with
  | Ret a => f a
  | Throw e => Throw e
  | FirecrawlExtract urls params k =>
      FirecrawlExtract urls params (fun r => prog_bind (k r) f)
  | AgentRun message k => AgentRun message (fun r => prog_bind (k r) f)
  end.

#[export] Instance Monad_prog : Monad prog := {
  ret := @Ret;
  bind := @prog_bind
}.

Definition firecrawl_extract (urls : list string) (params : extract_params)
    : prog pyval :=
  FirecrawlExtract urls params Ret.

Definition agent_run (message : string) : prog RunResponse :=
  AgentRun message Ret.

Definition lift_result {A : Type} (r : result A) : prog A :=
  match r with
  | Ok a => Ret a
  | Raise e => Throw e
  end.

(** A request that reached a backend. *)
Inductive event : Type :=
| EvExtract (urls : list string) (params : extract_params)
| EvRun (message : string).

(** What the two hosted services answer: a value, or an exception that
    propagates to the caller. *)
Record world : Type := {
  extract_backend : list string -> extract_params -> result pyval;
  agent_backend : string -> result RunResponse
}.

(** Runs a program against a world: the requests issued, in order, and
    the value returned or the exception raised. *)
Fixpoint run {A : Type} (w : world) (p : prog A) : list event * result A :=
  match p with
  | Ret a => ([], Ok a)
  | Throw e => ([], Raise e)
  | FirecrawlExtract urls params k =>
      match extract_backend w urls params with
      | Ok r => let (t, out) := run w (k r) in (EvExtract urls params :: t, out)
      | Raise e => ([EvExtract urls params], Raise e)
      end
  | AgentRun message k =>
      match agent_backend w message with
      | Ok r => let (t, out) := run w (k r) in (EvRun message :: t, out)
      | Raise e => ([EvRun message], Raise e)
      end
  end.

Definition trace {A : Type} (w : world) (p : prog A) : list event :=
  fst (run w p).

Definition outcome {A : Type} (w : world) (p : prog A) : result A :=
  snd (run w p).

End Backend.
Export Backend.

(** ** The agent *)

Module Agent.

Section Operations.

(** [format(v, '')], what an f-string field [{v}] renders for a value
    that is not a [str]: Python's own formatting of floats, lists and
    dicts, taken as given. *)
Variable py_format : pyval -> string.

(** [s.lower()], Python's Unicode-aware lower-casing, taken as given. *)
Variable lower : string -> string.

(** *** Request construction for [find_properties] *)

Definition property_urls (city : string) : list string :=
  let formatted_location := lower city in
  [ "https://www.squareyards.com/sale/property-for-sale-in-"
      ++ formatted_location ++ "/*";
    "https://www.99acres.com/property-in-" ++ formatted_location ++ "-ffid/*";
    "https://housing.com/in/buy/" ++ formatted_location ++ "/"
      ++ formatted_location ].

Definition property_type_prompt (property_type : string) : string :=
  if String.eqb property_type "Flat" then "Flats" else "Individual Houses".

Definition extraction_prompt (city : string) (max_price : float)
    (property_category property_type : string) : string :=
  "Extract up to 10 different " ++ property_category ++ " " ++ property_type_prompt property_type ++ " in " ++ city ++ " under " ++ py_format (PFloat max_price) ++ " crores." ++ nl ++
  "                " ++ nl ++
  "                Data Extraction Criteria:" ++ nl ++
  "                - Category: " ++ property_category ++ nl ++
  "                - Property Type: " ++ property_type_prompt property_type ++ nl ++
  "                - Maximum Price: " ++ py_format (PFloat max_price) ++ " " ++ nl ++
  "                - Location: " ++ city ++ nl ++
  "                - At least 3 and up to 10 properties" ++ nl ++
  "                - Include key details like name, price, location, and amenities" ++ nl ++
  "                " ++ nl ++
  "                Return the data in JSON format based on the schema." ++ nl ++
  "                ".

Definition property_params (city : string) (max_price : float)
    (property_category property_type : string) : extract_params :=
  {| prompt := extraction_prompt city max_price property_category property_type;
     schema := model_json_schema PropertiesResponse |}.

Definition analysis_prompt (city : string) (properties : pyval)
    (max_price : float) : string :=
  "Juno Montera Market Analysis - " ++ city ++ nl ++
  "            " ++ nl ++
  "            Properties Data:" ++ nl ++
  "            " ++ py_format properties ++ nl ++
  nl ++
  "            **Analysis Requirements:**" ++ nl ++
  "            - Select 5-6 properties closest to " ++ py_format (PFloat max_price) ++ " crores." ++ nl ++
  "            - Highlight key features, price, and investment potential in commercial real estate." ++ nl ++
  "            - Provide a structured breakdown including:" ++ nl ++
  "              🏢 **Selected Commercial Properties**" ++ nl ++
  "              💼 **Best Value Analysis for Investors**" ++ nl ++
  "              📍 **Location Insights for Brokers**" ++ nl ++
  "              💡 **Investment Recommendations for Lenders**" ++ nl ++
  "              🤝 **Negotiation Tips for Borrowers**" ++ nl ++
  "            ".

(** [isinstance(raw_response, dict) and raw_response.get('success')],
    as the condition of an [if]. *)
Definition success_indicator (raw_response : pyval) : bool :=
  match raw_response with
  | PDict d => truthy (dict_get d "success" PNone)
  | _ => false
  end.

(** The records [find_properties] goes on with (lines 90-93). *)
Definition select_properties (raw_response : pyval) : result pyval :=
  if success_indicator raw_response then
    match subscript raw_response "data" with
    | Ok data => method_get data "properties" (PList [])
    | Raise e => Raise e
    end
  else Ok (PList []).

Definition find_properties (city : string) (max_price : float)
    (property_category property_type : string) : prog string :=
  raw_response <-
    firecrawl_extract (property_urls city)
      (property_params city max_price property_category property_type) ;;
  properties <- lift_result (select_properties raw_response) ;;
  analysis <- agent_run (analysis_prompt city properties max_price) ;;
  ret (content analysis).

(** *** Request construction for [get_location_trends] *)

Definition trend_urls (city : string) : list string :=
  [ "https://www.99acres.com/property-rates-and-price-trends-in-"
      ++ lower city ++ "-prffid/*" ].

Definition trends_prompt : string :=
  "Extract price trends data for ALL major localities in the city. " ++ nl ++
  "            Ensure:" ++ nl ++
  "            - Data for 5-10 localities." ++ nl ++
  "            - Cover premium and affordable locations." ++ nl ++
  "            - Format output as structured data." ++ nl ++
  "            ".

Definition trend_params : extract_params :=
  {| prompt := trends_prompt;
     schema := model_json_schema LocationsResponse |}.

Definition trends_analysis_prompt (city : string) (locations : pyval)
    : string :=
  "Juno Montera - Market Trends in " ++ city ++ nl ++
  nl ++
  "                📊 **Summary of Location Price Trends in " ++ city ++ "**" ++ nl ++
  "                " ++ py_format locations ++ nl ++
  nl ++
  "                🏆 **Top Investment Areas in " ++ city ++ "**" ++ nl ++
  "                - Highest price appreciation" ++ nl ++
  "                - Best rental yields" ++ nl ++
  "                - Most affordable with future potential" ++ nl ++
  nl ++
  "                🎯 **Recommendations for Investors in " ++ city ++ "**" ++ nl ++
  "                - Best areas for long-term investment" ++ nl ++
  "                - High-demand rental locations" ++ nl ++
  "                - Growth corridors to watch" ++ nl ++
  "                ".

Definition no_trends_message : string := "No price trends data available".

Definition get_location_trends (city : string) : prog string :=
  raw_response <- firecrawl_extract (trend_urls city) trend_params ;;
  if success_indicator raw_response then
    data <- lift_result (subscript raw_response "data") ;;
    locations <- lift_result (method_get data "locations" (PList [])) ;;
    analysis <- agent_run (trends_analysis_prompt city locations) ;;
    ret (content analysis)
  else ret no_trends_message.

End Operations.

End Agent.
Export Agent.

(** ** Reading a trace *)

(** The URLs handed to the extraction backend during a run. *)
Definition urls_requested (t : list event) : list string :=
  flat_map (fun e => match e with
                     | EvExtract urls _ => urls
                     | EvRun _ => []
                     end) t.

(** The instruction text of an extraction request. *)
Definition instruction_of (e : event) : option string :=
  match e with
  | EvExtract _ params => Some (prompt params)
  | EvRun _ => None
  end.

(** The messages handed to the summarization backend during a run. *)
Definition messages_sent (t : list event) : list string :=
  flat_map (fun e => match e with
                     | EvExtract _ _ => []
                     | EvRun message => [message]
                     end) t.

(** A response without a truthy success indicator: whenever it is a
    mapping with a [success] entry, that entry is falsy. *)
Definition lacks_truthy_success (raw_response : pyval) : Prop :=
  forall d v, raw_response = PDict d -> lookup d "success" = Some v ->
              truthy v = false.

(** A rendering of the values the scenarios use, as Python prints them;
    it serves to evaluate the programs on concrete inputs. *)
Definition scenario_format (v : pyval) : string :=
  match v with
  | PNone => "None"
  | PBool true => "True"
  | PBool false => "False"
  | PFloat f => if PrimFloat.eqb f 5%float then "5.0" else "<float>"
  | PList [] => "[]"
  | PDict [] => "{}"
  | _ => "<value>"
  end.

(** A world whose extraction backend answers [raw_response] to every
    request and whose summarization backend answers [text]. *)
Definition constant_world (raw_response : pyval) (text : string) : world :=
  {| extract_backend := fun _ _ => Ok raw_response;
     agent_backend := fun _ => Ok {| content := text |} |}.

(** The claim's wording of the count constraint, and the line the
    instruction carries. *)
Definition spec_constraint_text : string := "at least 3 and up to 10 records".
Definition constraint_line : string := "At least 3 and up to 10 properties".

(** A character Python reports as upper-case ([c.isupper()]) although
    Unicode gives it no lower-case form, so that [c.lower()] is [c]:
    U+03D2, GREEK UPSILON WITH HOOK SYMBOL. *)
Definition upsilon_hook : string := "ϒ".

(** An upper-case character, as far as the development needs to tell:
    one of the letters A-Z, or the character above. *)
Definition spec_upper_char (c : string) : bool :=
  match c with
  | String a EmptyString => is_ascii_capital a
  | _ => String.eqb c upsilon_hook
  end.

(** The claim's wording: no URL contains an upper-case character taken
    from the city as typed. *)
Definition spec_no_capital_of_city (city : string) (urls : list string)
    : Prop :=
  forall c, spec_upper_char c = true -> contains c city ->
            Forall (fun url => ~ contains c url) urls.

(** The failure shapes as the claim lists them: no truthy success
    indicator, not a mapping, or a mapping without its [data] payload. *)
Definition spec_failure_shape (raw_response : pyval) : Prop :=
  lacks_truthy_success raw_response
  \/ isinstance_dict raw_response = false
  \/ (exists d, raw_response = PDict d /\ lookup d "data" = None).

(** ** Scenario data *)

(** Scenario B: the backend answers [{success: false}]. *)
Definition response_failure : pyval := PDict [("success", PBool false)].

(** Scenario C: the backend answers [{success: true, data: {locations: []}}]. *)
Definition response_no_locations : pyval :=
  PDict [("success", PBool true); ("data", PDict [("locations", PList [])])].

(** A successful answer whose payload has neither record list. *)
Definition response_bare_payload : pyval :=
  PDict [("success", PBool true); ("data", PDict [])].

(** A successful answer without its payload. *)
Definition response_no_payload : pyval := PDict [("success", PBool true)].

Definition sample_property (name price : string) : pyval :=
  PDict [("Building_name", PStr name); ("Property_type", PStr "Flat");
         ("location_address", PStr "Andheri West"); ("Price", PStr price);
         ("Description", PStr "2 BHK")].

Definition sample_location (name : string) : pyval :=
  PDict [("location", PStr name); ("price_per_sqft", PFloat 5%float);
         ("percent_increase", PFloat 5%float); ("rental_yield", PFloat 5%float)].

Definition sample_records : list pyval :=
  [sample_property "Sea View" "4.5 Cr"; sample_property "Hill Crest" "4.9 Cr"].

Definition response_with_records : pyval :=
  PDict [("success", PBool true);
         ("data", PDict [("properties", PList sample_records);
                         ("locations", PList [sample_location "Bandra"])]);
         ("status", PStr "completed")].

(** ** The form application *)

Module App.

(** The objects [__init__] builds: the summarization agent with its chat
    model, and the extraction client. *)
Record OpenAIChat : Type := {
  chat_id : string;
  chat_api_key : string
}.

Record AgnoAgent : Type := {
  agent_model : OpenAIChat;
  agent_markdown : bool;
  agent_description : string
}.

Record FirecrawlApp : Type := {
  firecrawl_api_key : string
}.

Record JunoMonteraRealEstateAgent : Type := {
  agent : AgnoAgent;
  firecrawl : FirecrawlApp
}.

Definition default_model_id : string := "o3-mini".

(** The agent object [__init__] leaves once both of its constructor
    calls have returned. *)
Definition init (firecrawl_key openai_key model_id : string)
    : JunoMonteraRealEstateAgent :=
  {| agent :=
       {| agent_model := {| chat_id := model_id; chat_api_key := openai_key |};
          agent_markdown := true;
          agent_description :=
            "I am Juno Montera's AI-powered real estate intelligence agent, providing insights on property trends, investment opportunities, and market analysis." |};
     firecrawl := {| firecrawl_api_key := firecrawl_key |} |}.

(** [FirecrawlApp(api_key=...)]: the client refuses an empty key (none
    being configured in the environment) with [ValueError]. *)
Definition new_FirecrawlApp (api_key : string) : result FirecrawlApp :=
  if String.eqb api_key "" then Raise (ValueError "No API key provided")
  else Ok {| firecrawl_api_key := api_key |}.

(** [JunoMonteraRealEstateAgent(firecrawl_api_key, openai_api_key, model_id)]:
    the summarization agent is built first, then the extraction client,
    whose exception propagates. *)
Definition new_agent (firecrawl_key openai_key model_id : string)
    : result JunoMonteraRealEstateAgent :=
  let summarizer := agent (init firecrawl_key openai_key model_id) in
  match new_FirecrawlApp firecrawl_key with
  | Ok client => Ok {| agent := summarizer; firecrawl := client |}
  | Raise e => Raise e
  end.

(** [st.session_state], with the four entries the program uses; an
    entry that was never set is [None]. *)
Record session_state : Type := {
  model_id : option string;
  firecrawl_key : option string;
  openai_key : option string;
  property_agent : option JunoMonteraRealEstateAgent
}.

Definition empty_session : session_state :=
  {| model_id := None; firecrawl_key := None; openai_key := None;
     property_agent := None |}.

Definition set_model_id (ss : session_state) (v : string) : session_state :=
  {| model_id := Some v; firecrawl_key := firecrawl_key ss;
     openai_key := openai_key ss; property_agent := property_agent ss |}.

Definition set_firecrawl_key (ss : session_state) (v : string)
    : session_state :=
  {| model_id := model_id ss; firecrawl_key := Some v;
     openai_key := openai_key ss; property_agent := property_agent ss |}.

Definition set_openai_key (ss : session_state) (v : string) : session_state :=
  {| model_id := model_id ss; firecrawl_key := firecrawl_key ss;
     openai_key := Some v; property_agent := property_agent ss |}.

Definition set_property_agent (ss : session_state)
    (a : JunoMonteraRealEstateAgent) : session_state :=
  {| model_id := model_id ss; firecrawl_key := firecrawl_key ss;
     openai_key := openai_key ss; property_agent := Some a |}.

(** [st.session_state.<name>]: [AttributeError] when the entry is not set. *)
Definition get_attr {A : Type} (name : string) (entry : option A) : result A :=
  match entry with
  | Some v => Ok v
  | None => Raise (AttributeError name)
  end.

(** [initialize_agent()]: the constructor's arguments are read in the
    order they are written. *)
Definition initialize_agent (ss : session_state) : result session_state :=
  match property_agent ss with
  | None =>
      match get_attr "firecrawl_key" (firecrawl_key ss) with
      | Raise e => Raise e
      | Ok fk =>
          match get_attr "openai_key" (openai_key ss) with
          | Raise e => Raise e
          | Ok ok =>
              match get_attr "model_id" (model_id ss) with
              | Raise e => Raise e
              | Ok mid =>
                  match new_agent fk ok mid with
                  | Raise e => Raise e
                  | Ok a => Ok (set_property_agent ss a)
                  end
              end
          end
      end
  | Some _ => Ok ss
  end.

(** What one run of the script renders. *)
Inductive widget : Type :=
| PageConfig (page_title page_icon layout : string)
| Title (text : string)
| Subheader (text : string)
| Selectbox (label : string) (options : list string)
| TextInput (label : string) (password : bool) (placeholder : option string)
| NumberInput (label : string) (min_value max_value value : float)
| Button (label : string)
| Warning (text : string)
| Info (text : string)
| Markdown (text : string)
| Spinner (text : string)
| Error (text : string).

Inductive element : Type :=
| Sidebar (wd : widget)
| Page (wd : widget).

(** What the widgets of one run return: the user's entries. *)
Record form_inputs : Type := {
  in_model_id : string;
  in_firecrawl_key : string;
  in_openai_key : string;
  in_city : string;
  in_property_category : string;
  in_max_price : float;
  in_property_type : string;
  in_search : bool
}.

Definition model_options : list string := ["o3-mini"; "gpt-4o"].
Definition category_options : list string := ["Residential"; "Commercial"].
Definition type_options : list string := ["Flat"; "Individual House"].

Definition sidebar_elements : list element :=
  [ Page (PageConfig "Juno Montera - Real Estate Intelligence" "🏢" "wide");
    Sidebar (Title "🔑 API Configuration");
    Sidebar (Selectbox "Choose AI Model" model_options);
    Sidebar (Subheader "🔐 API Keys");
    Sidebar (TextInput "Firecrawl API Key" true None);
    Sidebar (TextInput "OpenAI API Key" true None) ].

Definition missing_keys_warning : element :=
  Page (Warning
          "Please enter your API keys in the sidebar to initialize the agent.").

Definition insights_markdown : string :=
  nl ++
  "    - **Latest Trends in Commercial Real Estate**" ++ nl ++
  "    - **Investment Opportunities in Key Markets**" ++ nl ++
  "    - **Expert Analysis on Property Trends**" ++ nl ++
  "    ".

#[warnings="-inexact-float"]
Definition form_elements : list element :=
  [ Page (Title "🏢 Juno Montera - Real Estate Intelligence");
    Page (Info "AI-driven insights for smarter real estate decisions.");
    Page (Subheader "📈 Market Insights & Blog");
    Page (Markdown insights_markdown);
    Page (TextInput "City" false (Some "Enter city name"));
    Page (Selectbox "Property Category" category_options);
    Page (NumberInput "Max Price" 0.1%float 100%float 5%float);
    Page (Selectbox "Property Type" type_options);
    Page (Button "🔍 Search Properties") ].

Definition configure_keys_error : element :=
  Page (Error "Please configure API keys first").

Section Script.

Variable py_format : pyval -> string.
Variable lower : string -> string.

(** The sidebar block of [main] (lines 171-183): the chosen model is
    always stored; the keys are stored, and the agent initialized, only
    when both fields are filled. *)
Definition sidebar (ss : session_state) (inp : form_inputs)
    : result session_state :=
  let ss := set_model_id ss (in_model_id inp) in
  if andb (truthy (PStr (in_firecrawl_key inp)))
          (truthy (PStr (in_openai_key inp)))
  then
    let ss := set_firecrawl_key ss (in_firecrawl_key inp) in
    let ss := set_openai_key ss (in_openai_key inp) in
    initialize_agent ss
  else Ok ss.

(** One run of [main]: the session state it leaves and what it
    rendered. *)
Definition main (ss : session_state) (inp : form_inputs)
    : prog (session_state * list element) :=
  ss <- lift_result (sidebar ss inp) ;;
  match property_agent ss with
  | None => ret (ss, (sidebar_elements ++ [missing_keys_warning])%list)
  | Some _ =>
      if in_search inp then
        match property_agent ss with
        | Some _ =>
            result <-
              find_properties py_format lower (in_city inp) (in_max_price inp)
                (in_property_category inp) (in_property_type inp) ;;
            ret (ss,
                 (sidebar_elements ++ form_elements
                  ++ [Page (Spinner "Processing..."); Page (Markdown result)])%list)
        | None =>
            ret (ss,
                 (sidebar_elements ++ form_elements
                  ++ [configure_keys_error])%list)
        end
      else ret (ss, (sidebar_elements ++ form_elements)%list)
  end.

End Script.

(** The entries a user can make through the widgets: a listed option in
    each select box, a price within the bounds of the number field. *)
#[warnings="-inexact-float"]
Definition valid_inputs (inp : form_inputs) : Prop :=
  In (in_model_id inp) model_options
  /\ In (in_property_category inp) category_options
  /\ In (in_property_type inp) type_options
  /\ PrimFloat.leb 0.1%float (in_max_price inp) = true
  /\ PrimFloat.leb (in_max_price inp) 100%float = true.

(** A filled form for the scenarios. *)
Definition sample_inputs (fk ok : string) (search : bool) : form_inputs :=
  {| in_model_id := "gpt-4o"; in_firecrawl_key := fk; in_openai_key := ok;
     in_city := "Mumbai"; in_property_category := "Residential";
     in_max_price := 5%float; in_property_type := "Flat";
     in_search := search |}.

End App.
Export App.

(** ** Further scenario data *)

(** A world whose extraction backend raises [e]. *)
Definition extraction_down_world (e : exn) : world :=
  {| extract_backend := fun _ _ => Raise e;
     agent_backend := fun _ => Ok {| content := "report" |} |}.

(** A world whose extraction backend answers [raw_response] and whose
    summarization backend raises [e]. *)
Definition summarizer_down_world (raw_response : pyval) (e : exn) : world :=
  {| extract_backend := fun _ _ => Ok raw_response;
     agent_backend := fun _ => Raise e |}.

(** A successful answer whose payload is null. *)
Definition response_null_payload : pyval :=
  PDict [("success", PBool true); ("data", PNone)].

(** A successful answer whose record lists are null. *)
Definition response_null_records : pyval :=
  PDict [("success", PBool true);
         ("data", PDict [("properties", PNone); ("locations", PNone)])].

(** A session in which an agent was created earlier, from other keys
    and the other model. *)
Definition session_with_agent : session_state :=
  {| model_id := Some "o3-mini"; firecrawl_key := Some "fc-old";
     openai_key := Some "sk-old";
     property_agent := Some (init "fc-old" "sk-old" "o3-mini") |}.

(** ** Facts about text *)

Section TextFacts.

Lemma append_assoc (a b c : string) : (a ++ b) ++ c = a ++ b ++ c.
Proof.
  induction a as [|x a IH]; simpl; [reflexivity | now rewrite IH].
Qed.

Lemma append_empty_r (a : string) : a ++ "" = a.
Proof.
  induction a as [|x a IH]; simpl; [reflexivity | now rewrite IH].
Qed.

Lemma contains_head (n post : string) : contains n (n ++ post).
Proof. exists "", post. reflexivity. Qed.

Lemma contains_refl (n : string) : contains n n.
Proof. exists "", "". simpl. now rewrite append_empty_r. Qed.

Lemma contains_skip (n p h : string) : contains n h -> contains n (p ++ h).
Proof.
  intros (pre & post & ->). exists (p ++ pre), post.
  now rewrite append_assoc.
Qed.

Lemma contains_cons (n : string) (c : ascii) (h : string) :
  contains n h -> contains n (String c h).
Proof. apply (contains_skip n (String c "") h). Qed.

Lemma prefixb_spec (p s : string) :
  prefixb p s = true <-> exists post, s = p ++ post.
Proof.
  revert s. induction p as [|a p IH]; intros s; simpl.
  - split; [intros _; now exists s | reflexivity].
  - destruct s as [|b s].
    + split; [discriminate | intros (post & H); discriminate].
    + rewrite andb_true_iff, Ascii.eqb_eq, IH. split.
      * intros (-> & post & ->). now exists post.
      * intros (post & H). injection H as -> ->. split; [reflexivity | now exists post].
Qed.

Lemma containsb_spec (n h : string) : containsb n h = true <-> contains n h.
Proof.
  induction h as [|c h IH].
  - simpl. rewrite orb_false_r, prefixb_spec. split.
    + intros (post & H). exists "", post. exact H.
    + intros (pre & post & H). destruct pre; simpl in H.
      * now exists post.
      * discriminate.
  - cbn [containsb]. rewrite orb_true_iff, IH, prefixb_spec. split.
    + intros [(post & ->) | H].
      * apply contains_head.
      * now apply contains_cons.
    + intros (pre & post & H). destruct pre as [|x pre]; simpl in H.
      * left. now exists post.
      * right. injection H as _ ->. now exists pre, post.
Qed.

Lemma contains_within (n h rest : string) :
  containsb n h = true -> contains n (h ++ rest).
Proof.
  intros H. apply containsb_spec in H. destruct H as (pre & post & ->).
  exists pre, (post ++ rest). now rewrite !append_assoc.
Qed.

Lemma not_contains (n h : string) : containsb n h = false -> ~ contains n h.
Proof.
  intros Hb Hc. apply containsb_spec in Hc. congruence.
Qed.

Lemma ascii_lower_char_not_capital (c : ascii) :
  is_ascii_capital (ascii_lower_char c) = false.
Proof.
  destruct c as [[] [] [] [] [] [] [] []]; reflexivity.
Qed.

Lemma ascii_lower_no_capital (s : string) :
  no_ascii_capital (ascii_lower s) = true.
Proof.
  induction s as [|c s IH]; simpl; [reflexivity |].
  now rewrite ascii_lower_char_not_capital, IH.
Qed.

Lemma no_ascii_capital_app (a b : string) :
  no_ascii_capital (a ++ b) = andb (no_ascii_capital a) (no_ascii_capital b).
Proof.
  induction a as [|c a IH]; simpl; [reflexivity |].
  now rewrite IH, andb_assoc.
Qed.

(** The byte-wise lower-casing has the two properties used of
    [str.lower]. *)
Lemma ascii_lower_python_lower : python_lower ascii_lower.
Proof.
  split; [reflexivity | apply ascii_lower_no_capital].
Qed.

Lemma length_append (a b : string) :
  String.length (a ++ b) = String.length a + String.length b.
Proof.
  induction a as [|c a IH]; simpl; [reflexivity | now rewrite IH].
Qed.

Lemma append_cancel_r (a b s : string) : a ++ s = b ++ s -> a = b.
Proof.
  revert b. induction a as [|c a IH]; intros [|d b] H; simpl in H.
  - reflexivity.
  - apply (f_equal String.length) in H. simpl in H.
    rewrite length_append in H. lia.
  - apply (f_equal String.length) in H. simpl in H.
    rewrite length_append in H. lia.
  - injection H as -> H. f_equal. now apply IH.
Qed.

End TextFacts.

(** Finds an embedded piece of text in a chain of concatenations. *)
Ltac find_embedded :=
  repeat first [ apply contains_head | apply contains_refl | apply contains_skip ].

(** ** How the two operations run *)

Section Runs.

Variable py_format : pyval -> string.
Variable lower : string -> string.
Variable w : world.

Abbreviation property_urls := (property_urls lower).
Abbreviation trend_urls := (trend_urls lower).
Abbreviation find_properties := (find_properties py_format lower).
Abbreviation get_location_trends := (get_location_trends py_format lower).
Abbreviation property_params := (property_params py_format).
Abbreviation analysis_prompt := (analysis_prompt py_format).
Abbreviation trends_analysis_prompt := (trends_analysis_prompt py_format).

Lemma success_indicator_false (r : pyval) :
  lacks_truthy_success r <-> success_indicator r = false.
Proof.
  unfold lacks_truthy_success, success_indicator, dict_get. split.
  - intros H. destruct r as [| | | | | |d]; try reflexivity.
    destruct (lookup d "success") as [v|] eqn:E; [|reflexivity].
    exact (H d v eq_refl E).
  - intros H d v -> E. now rewrite E in H.
Qed.

Lemma success_indicator_true (d : list (string * pyval)) (v : pyval) :
  lookup d "success" = Some v -> truthy v = true ->
  success_indicator (PDict d) = true.
Proof.
  intros E T. unfold success_indicator, dict_get. now rewrite E.
Qed.

Lemma run_find_properties_raise (city : string) (max_price : float)
    (property_category property_type : string) (e : exn) :
  extract_backend w (property_urls city)
    (property_params city max_price property_category property_type)
    = Raise e ->
  run w (find_properties city max_price property_category property_type)
  = ([EvExtract (property_urls city)
        (property_params city max_price property_category property_type)],
     Raise e).
Proof.
  intros E. unfold find_properties. cbn. now rewrite E.
Qed.

Lemma run_find_properties (city : string) (max_price : float)
    (property_category property_type : string) (r : pyval) :
  extract_backend w (property_urls city)
    (property_params city max_price property_category property_type) = Ok r ->
  run w (find_properties city max_price property_category property_type)
  = match select_properties r with
    | Ok properties =>
        ([EvExtract (property_urls city)
            (property_params city max_price property_category property_type);
          EvRun (analysis_prompt city properties max_price)],
         result_map content
           (agent_backend w (analysis_prompt city properties max_price)))
    | Raise e =>
        ([EvExtract (property_urls city)
            (property_params city max_price property_category property_type)],
         Raise e)
    end.
Proof.
  intros E. unfold find_properties. cbn. rewrite E.
  destruct (select_properties r) as [properties|e]; cbn; [|reflexivity].
  destruct (agent_backend w _) as [a|e]; reflexivity.
Qed.

Lemma run_get_location_trends_raise (city : string) (e : exn) :
  extract_backend w (trend_urls city) trend_params = Raise e ->
  run w (get_location_trends city)
  = ([EvExtract (trend_urls city) trend_params], Raise e).
Proof.
  intros E. unfold get_location_trends. cbn. now rewrite E.
Qed.

Lemma run_get_location_trends_no_data (city : string) (r : pyval) :
  extract_backend w (trend_urls city) trend_params = Ok r ->
  success_indicator r = false ->
  run w (get_location_trends city)
  = ([EvExtract (trend_urls city) trend_params], Ok no_trends_message).
Proof.
  intros E S. unfold get_location_trends. cbn. now rewrite E, S.
Qed.

Lemma run_get_location_trends_data (city : string)
    (d p : list (string * pyval)) :
  extract_backend w (trend_urls city) trend_params = Ok (PDict d) ->
  success_indicator (PDict d) = true ->
  lookup d "data" = Some (PDict p) ->
  run w (get_location_trends city)
  = ([EvExtract (trend_urls city) trend_params;
      EvRun (trends_analysis_prompt city (dict_get p "locations" (PList [])))],
     result_map content
       (agent_backend w
          (trends_analysis_prompt city (dict_get p "locations" (PList []))))).
Proof.
  intros E S D. unfold get_location_trends. cbn. rewrite E, S. cbn.
  rewrite D. cbn.
  destruct (agent_backend w _) as [a|e]; reflexivity.
Qed.

Lemma select_properties_data (d p : list (string * pyval)) :
  success_indicator (PDict d) = true ->
  lookup d "data" = Some (PDict p) ->
  select_properties (PDict d) = Ok (dict_get p "properties" (PList [])).
Proof.
  intros S D. unfold select_properties. rewrite S. cbn. now rewrite D.
Qed.

Lemma select_properties_no_success (r : pyval) :
  success_indicator r = false -> select_properties r = Ok (PList []).
Proof.
  intros S. unfold select_properties. now rewrite S.
Qed.

(** Every run of [find_properties] first issues the one extraction
    request built from its parameters, whatever the world answers. *)
Lemma trace_find_properties_head (city : string) (max_price : float)
    (property_category property_type : string) :
  exists rest,
    trace w (find_properties city max_price property_category property_type)
    = EvExtract (property_urls city)
        (property_params city max_price property_category property_type)
      :: rest
    /\ urls_requested rest = []
    /\ (rest = [] \/
        exists properties,
          rest = [EvRun (analysis_prompt city properties max_price)]).
Proof.
  unfold trace.
  destruct (extract_backend w (property_urls city)
              (property_params city max_price property_category property_type))
    as [r|e] eqn:E.
  - rewrite (run_find_properties city max_price property_category property_type r E).
    destruct (select_properties r) as [properties|e].
    + eexists. split; [reflexivity |]. split; [reflexivity |].
      right. now exists properties.
    + exists []. auto.
  - rewrite (run_find_properties_raise city max_price property_category property_type e E). exists []. auto.
Qed.

Lemma trace_get_location_trends_head (city : string) :
  exists rest,
    trace w (get_location_trends city)
    = EvExtract (trend_urls city) trend_params :: rest
    /\ urls_requested rest = []
    /\ (rest = [] \/
        exists locations,
          rest = [EvRun (trends_analysis_prompt city locations)]).
Proof.
  unfold trace, get_location_trends. cbn.
  destruct (extract_backend w (trend_urls city) trend_params) as [r|e];
    [| exists []; auto].
  destruct (success_indicator r); cbn; [| exists []; auto].
  destruct (subscript r "data") as [data|e]; cbn; [| exists []; auto].
  destruct (method_get data "locations" (PList [])) as [locations|e]; cbn;
    [| exists []; auto].
  destruct (agent_backend w _) as [a|e]; cbn;
    (eexists; split; [reflexivity |]; split; [reflexivity |];
     right; now exists locations).
Qed.

End Runs.

(** ** Request construction *)

Section RequestBuilder.

Variable py_format : pyval -> string.
Variable lower : string -> string.

Abbreviation property_urls := (property_urls lower).
Abbreviation trend_urls := (trend_urls lower).
Abbreviation find_properties := (find_properties py_format lower).
Abbreviation get_location_trends := (get_location_trends py_format lower).
Abbreviation property_params := (property_params py_format).
Abbreviation extraction_prompt := (extraction_prompt py_format).
Abbreviation analysis_prompt := (analysis_prompt py_format).
Abbreviation trends_analysis_prompt := (trends_analysis_prompt py_format).

Lemma urls_of_find_properties (w : world) (city : string) (max_price : float)
    (property_category property_type : string) :
  urls_requested
    (trace w (find_properties city max_price property_category property_type))
  = property_urls city.
Proof.
  destruct (trace_find_properties_head py_format lower w city max_price
              property_category property_type) as (rest & -> & R & _).
  unfold urls_requested in *. cbn [flat_map]. rewrite R. apply app_nil_r.
Qed.

Lemma urls_of_get_location_trends (w : world) (city : string) :
  urls_requested (trace w (get_location_trends city)) = trend_urls city.
Proof.
  destruct (trace_get_location_trends_head py_format lower w city)
    as (rest & -> & R & _).
  unfold urls_requested in *. cbn [flat_map]. rewrite R. apply app_nil_r.
Qed.

Lemma property_urls_embed_lower (city : string) :
  Forall (contains (lower city)) (property_urls city).
Proof.
  unfold Agent.property_urls. cbv zeta.
  repeat apply Forall_cons; try apply Forall_nil; find_embedded.
Qed.

Lemma trend_urls_embed_lower (city : string) :
  Forall (contains (lower city)) (trend_urls city).
Proof.
  unfold Agent.trend_urls.
  repeat apply Forall_cons; try apply Forall_nil; find_embedded.
Qed.

Lemma property_urls_no_ascii_capital (city : string) :
  python_lower lower ->
  Forall (fun url => no_ascii_capital url = true) (property_urls city).
Proof.
  intros H. unfold Agent.property_urls. cbv zeta.
  repeat apply Forall_cons; try apply Forall_nil;
    rewrite !no_ascii_capital_app, !(lower_no_ascii_capital H); reflexivity.
Qed.

Lemma trend_urls_no_ascii_capital (city : string) :
  python_lower lower ->
  Forall (fun url => no_ascii_capital url = true) (trend_urls city).
Proof.
  intros H. unfold Agent.trend_urls.
  repeat apply Forall_cons; try apply Forall_nil;
    rewrite !no_ascii_capital_app, !(lower_no_ascii_capital H); reflexivity.
Qed.


(** C7. The request a run issues is a function of the parameters alone:
    two runs with the same parameters, in any two worlds, hand the same
    URL list and the same instruction text to the extraction backend,
    namely the ones built from the parameters. *)
Theorem C7_request_construction_pure :
  forall (w1 w2 : world) (city : string) (max_price : float)
         (property_category property_type : string),
    (hd_error (trace w1 (find_properties city max_price
                           property_category property_type))
     = hd_error (trace w2 (find_properties city max_price
                             property_category property_type))
     /\ hd_error (trace w1 (find_properties city max_price
                              property_category property_type))
        = Some (EvExtract (property_urls city)
                  {| prompt := extraction_prompt city max_price
                                 property_category property_type;
                     schema := PropertiesResponse |}))
    /\ (hd_error (trace w1 (get_location_trends city))
        = hd_error (trace w2 (get_location_trends city))
        /\ hd_error (trace w1 (get_location_trends city))
           = Some (EvExtract (trend_urls city)
                     {| prompt := trends_prompt;
                        schema := LocationsResponse |})).
Proof.
  intros w1 w2 city max_price property_category property_type.
  destruct (trace_find_properties_head py_format lower w1 city max_price
              property_category property_type) as (r1 & -> & _).
  destruct (trace_find_properties_head py_format lower w2 city max_price
              property_category property_type) as (r2 & -> & _).
  destruct (trace_get_location_trends_head py_format lower w1 city)
    as (r3 & -> & _).
  destruct (trace_get_location_trends_head py_format lower w2 city)
    as (r4 & -> & _).
  repeat split.
Qed.

Lemma extraction_prompt_embeds_city (city : string) (max_price : float)
    (property_category property_type : string) :
  contains city
    (extraction_prompt city max_price property_category property_type).
Proof. unfold Agent.extraction_prompt. find_embedded. Qed.

Lemma analysis_prompt_embeds_city (city : string) (properties : pyval)
    (max_price : float) :
  contains city (analysis_prompt city properties max_price).
Proof. unfold Agent.analysis_prompt. find_embedded. Qed.

Lemma trends_analysis_prompt_embeds_city (city : string) (locations : pyval) :
  contains city (trends_analysis_prompt city locations).
Proof. unfold Agent.trends_analysis_prompt. find_embedded. Qed.

(** C8. The city is lower-cased for the URLs and for nothing else.
    Every run of [find_properties] starts with the extraction request
    whose three URLs are the templates filled with the lower-cased city
    and whose instruction is the text built from the city as supplied;
    the message to the summarizer, sent whenever the response handling
    yields records, is built from the city as supplied too.  Every run
    of [get_location_trends] starts with the request for the one URL
    filled with the lower-cased city, and its message to the summarizer
    is built from the city as supplied.  The city as supplied occurs in
    each of these texts, and none of them depends on the lower-casing:
    with any other lower-casing function in place of [str.lower], the
    instruction and, for the same response, the messages are the
    same. *)
Theorem C8_city_lowercased_in_urls_only :
  forall (w : world) (city : string) (max_price : float)
         (property_category property_type : string),
    ((exists rest,
         trace w (find_properties city max_price
                    property_category property_type)
         = EvExtract
             [ "https://www.squareyards.com/sale/property-for-sale-in-"
                 ++ lower city ++ "/*";
               "https://www.99acres.com/property-in-" ++ lower city
                 ++ "-ffid/*";
               "https://housing.com/in/buy/" ++ lower city ++ "/"
                 ++ lower city ]
             {| prompt := extraction_prompt city max_price
                            property_category property_type;
                schema := PropertiesResponse |}
           :: rest
         /\ (rest = []
             \/ exists properties,
                  rest = [EvRun (analysis_prompt city properties max_price)]))
     /\ (forall r properties,
            extract_backend w (property_urls city)
              (property_params city max_price property_category property_type)
            = Ok r ->
            select_properties r = Ok properties ->
            messages_sent
              (trace w (find_properties city max_price
                          property_category property_type))
            = [analysis_prompt city properties max_price])
     /\ contains city
          (extraction_prompt city max_price property_category property_type)
     /\ (forall properties,
            contains city (analysis_prompt city properties max_price)))
    /\ ((exists rest,
            trace w (get_location_trends city)
            = EvExtract
                [ "https://www.99acres.com/property-rates-and-price-trends-in-"
                    ++ lower city ++ "-prffid/*" ]
                trend_params
              :: rest
            /\ (rest = []
                \/ exists locations,
                     rest = [EvRun (trends_analysis_prompt city locations)]))
        /\ (forall locations,
               contains city (trends_analysis_prompt city locations)))
    /\ (forall (lower' : string -> string) (w' : world),
           (option_map instruction_of
              (hd_error
                 (trace w' (Agent.find_properties py_format lower' city
                              max_price property_category property_type)))
            = option_map instruction_of
                (hd_error
                   (trace w (find_properties city max_price
                               property_category property_type))))
           /\ (forall r,
                  extract_backend w (property_urls city)
                    (property_params city max_price
                       property_category property_type) = Ok r ->
                  extract_backend w' (Agent.property_urls lower' city)
                    (property_params city max_price
                       property_category property_type) = Ok r ->
                  messages_sent
                    (trace w' (Agent.find_properties py_format lower' city
                                 max_price property_category property_type))
                  = messages_sent
                      (trace w (find_properties city max_price
                                  property_category property_type)))
           /\ (forall r,
                  extract_backend w (trend_urls city) trend_params = Ok r ->
                  extract_backend w' (Agent.trend_urls lower' city)
                    trend_params = Ok r ->
                  messages_sent
                    (trace w' (Agent.get_location_trends py_format lower' city))
                  = messages_sent (trace w (get_location_trends city)))).
Proof.
  intros w city max_price property_category property_type.
  split; [| split].
  - split; [| split; [| split]].
    + destruct (trace_find_properties_head py_format lower w city max_price
                  property_category property_type) as (rest & T & _ & R).
      exists rest. split; [exact T | exact R].
    + intros r properties E P. unfold trace.
      rewrite (run_find_properties py_format lower w city max_price
                 property_category property_type r E), P.
      reflexivity.
    + apply extraction_prompt_embeds_city.
    + intros properties. apply analysis_prompt_embeds_city.
  - split.
    + destruct (trace_get_location_trends_head py_format lower w city)
        as (rest & T & _ & R).
      exists rest. split; [exact T | exact R].
    + intros locations. apply trends_analysis_prompt_embeds_city.
  - intros lower' w'. split; [| split].
    + destruct (trace_find_properties_head py_format lower w city max_price
                  property_category property_type) as (rest & -> & _).
      destruct (trace_find_properties_head py_format lower' w' city max_price
                  property_category property_type) as (rest' & -> & _).
      reflexivity.
    + intros r E E'. unfold trace.
      rewrite (run_find_properties py_format lower w city max_price
                 property_category property_type r E).
      rewrite (run_find_properties py_format lower' w' city max_price
                 property_category property_type r E').
      destruct (select_properties r); reflexivity.
    + intros r E E'. unfold trace, Agent.get_location_trends. cbn.
      rewrite E, E'. destruct (success_indicator r); cbn; [| reflexivity].
      destruct (subscript r "data") as [data|e]; cbn; [| reflexivity].
      destruct (method_get data "locations" (PList [])) as [locations|e]; cbn;
        [| reflexivity].
      destruct (agent_backend w _), (agent_backend w' _); reflexivity.
Qed.

End RequestBuilder.

(** ** The extraction instruction *)

Section Instruction.

Variable py_format : pyval -> string.
Variable lower : string -> string.

Abbreviation property_urls := (property_urls lower).
Abbreviation trend_urls := (trend_urls lower).
Abbreviation find_properties := (find_properties py_format lower).
Abbreviation extraction_prompt := (extraction_prompt py_format).

(** C9 (amended). For every valid property type, the instruction handed to
    the extraction backend by [find_properties] embeds the category, the
    plural label ("Flats" for "Flat", "Individual Houses" for
    "Individual House"), the rendered max price, the city, and the
    constraint line "At least 3 and up to 10 properties". *)
Theorem C9_instruction_embeds_parameters :
  forall (w : world) (city : string) (max_price : float)
         (property_category property_type : string),
    property_type = "Flat" \/ property_type = "Individual House" ->
    exists params,
      hd_error (trace w (find_properties city max_price
                           property_category property_type))
      = Some (EvExtract (property_urls city) params)
      /\ contains property_category (prompt params)
      /\ contains (property_type_prompt property_type) (prompt params)
      /\ (property_type = "Flat" ->
          property_type_prompt property_type = "Flats")
      /\ (property_type = "Individual House" ->
          property_type_prompt property_type = "Individual Houses")
      /\ contains (py_format (PFloat max_price)) (prompt params)
      /\ contains city (prompt params)
      /\ contains constraint_line (prompt params).
Proof.
  intros w city max_price property_category property_type Hty.
  destruct (trace_find_properties_head py_format lower w city max_price
              property_category property_type) as (rest & -> & _).
  eexists. split; [reflexivity |].
  cbn [prompt property_params]. unfold Agent.extraction_prompt.
  repeat split.
  - find_embedded.
  - find_embedded.
  - now intros ->.
  - now intros ->.
  - find_embedded.
  - find_embedded.
  - unfold constraint_line.
    do 27 apply contains_skip.
    apply contains_within. reflexivity.
Qed.

End Instruction.

(** ** Handling of the extraction response *)

Section ResponseHandling.

Variable py_format : pyval -> string.
Variable lower : string -> string.

Abbreviation property_urls := (property_urls lower).
Abbreviation trend_urls := (trend_urls lower).
Abbreviation find_properties := (find_properties py_format lower).
Abbreviation get_location_trends := (get_location_trends py_format lower).
Abbreviation property_params := (property_params py_format).
Abbreviation analysis_prompt := (analysis_prompt py_format).
Abbreviation trends_analysis_prompt := (trends_analysis_prompt py_format).

(** C1 (amended). For every response that is not a mapping or has no truthy
    success indicator, no exception is raised by the handling:
    [find_properties] goes on with the empty list and returns what the
    summarizer returns, and [get_location_trends] returns the no-data
    message after its single extraction request. *)
Theorem C1_failure_yields_no_records :
  forall (raw_response : pyval),
    lacks_truthy_success raw_response ->
    select_properties raw_response = Ok (PList [])
    /\ (forall (w : world) (city : string) (max_price : float)
               (property_category property_type : string),
           extract_backend w (property_urls city)
             (property_params city max_price property_category property_type)
           = Ok raw_response ->
           outcome w (find_properties city max_price
                        property_category property_type)
           = result_map content
               (agent_backend w (analysis_prompt city (PList []) max_price)))
    /\ (forall (w : world) (city : string),
           extract_backend w (trend_urls city) trend_params
           = Ok raw_response ->
           outcome w (get_location_trends city) = Ok no_trends_message).
Proof.
  intros r H. apply success_indicator_false in H.
  split; [now apply select_properties_no_success |]. split.
  - intros w city max_price property_category property_type E.
    unfold outcome. rewrite (run_find_properties py_format lower w city max_price property_category property_type _ E).
    now rewrite (select_properties_no_success _ H).
  - intros w city E. unfold outcome.
    now rewrite (run_get_location_trends_no_data py_format lower w city _ E H).
Qed.

(** C3. When the extraction backend answers a mapping whose [success]
    is false, [find_properties] issues the summarization request with
    the empty list rendered into the analysis prompt, and returns the
    content of the summarizer's answer. *)
Theorem C3_success_false_still_summarizes :
  forall (w : world) (city : string) (max_price : float)
         (property_category property_type : string)
         (d : list (string * pyval)),
    extract_backend w (property_urls city)
      (property_params city max_price property_category property_type)
    = Ok (PDict d) ->
    lookup d "success" = Some (PBool false) ->
    run w (find_properties city max_price property_category property_type)
    = ([EvExtract (property_urls city)
          (property_params city max_price property_category property_type);
        EvRun (analysis_prompt city (PList []) max_price)],
       result_map content
         (agent_backend w (analysis_prompt city (PList []) max_price)))
    /\ contains (py_format (PList []))
         (analysis_prompt city (PList []) max_price).
Proof.
  intros w city max_price property_category property_type d E S. split.
  - rewrite (run_find_properties py_format lower w city max_price property_category property_type _ E).
    assert (F : success_indicator (PDict d) = false).
    { unfold success_indicator, dict_get. now rewrite S. }
    now rewrite (select_properties_no_success _ F).
  - unfold Agent.analysis_prompt. find_embedded.
Qed.

(** C4. When the response has no truthy success indicator,
    [get_location_trends] returns the fixed no-data message and the only
    request of the run is the extraction request: the summarization
    backend is not invoked. *)
Theorem C4_trends_no_data_message :
  forall (w : world) (city : string) (raw_response : pyval),
    extract_backend w (trend_urls city) trend_params = Ok raw_response ->
    lacks_truthy_success raw_response ->
    run w (get_location_trends city)
    = ([EvExtract (trend_urls city) trend_params],
       Ok "No price trends data available")
    /\ messages_sent (trace w (get_location_trends city)) = [].
Proof.
  intros w city r E H. apply success_indicator_false in H.
  unfold trace. rewrite (run_get_location_trends_no_data py_format lower w city _ E H).
  split; reflexivity.
Qed.

(** C5. When the response is a mapping with [success] true whose [data]
    payload has an empty [locations] list, [get_location_trends] still
    issues the summarization request, with the empty list, and returns
    the content of the summarizer's answer. *)
Theorem C5_empty_locations_still_summarized :
  forall (w : world) (city : string) (d p : list (string * pyval)),
    extract_backend w (trend_urls city) trend_params = Ok (PDict d) ->
    lookup d "success" = Some (PBool true) ->
    lookup d "data" = Some (PDict p) ->
    lookup p "locations" = Some (PList []) ->
    run w (get_location_trends city)
    = ([EvExtract (trend_urls city) trend_params;
        EvRun (trends_analysis_prompt city (PList []))],
       result_map content
         (agent_backend w (trends_analysis_prompt city (PList []))))
    /\ messages_sent (trace w (get_location_trends city))
       = [trends_analysis_prompt city (PList [])].
Proof.
  intros w city d p E S D L.
  assert (T : success_indicator (PDict d) = true)
    by (apply (success_indicator_true d _ S); reflexivity).
  unfold trace. rewrite (run_get_location_trends_data py_format lower w city d p E T D).
  unfold dict_get. rewrite L. split; reflexivity.
Qed.

(** C6. When the response is a mapping with a truthy [success] whose
    [data] payload is a mapping holding the record list under the
    schema's top-level field, the collection rendered into the
    summarization prompt has as many records as the payload, in the same
    order, in [find_properties] and in [get_location_trends]. *)
Theorem C6_records_passed_in_order :
  forall (w : world) (city : string) (max_price : float)
         (property_category property_type : string)
         (d p : list (string * pyval)) (v : pyval) (records : list pyval),
    lookup d "success" = Some v -> truthy v = true ->
    lookup d "data" = Some (PDict p) ->
    (lookup p "properties" = Some (PList records) ->
     extract_backend w (property_urls city)
       (property_params city max_price property_category property_type)
     = Ok (PDict d) ->
     exists passed,
       select_properties (PDict d) = Ok (PList passed)
       /\ messages_sent
            (trace w (find_properties city max_price
                        property_category property_type))
          = [analysis_prompt city (PList passed) max_price]
       /\ length passed = length records
       /\ forall i, nth_error passed i = nth_error records i)
    /\ (lookup p "locations" = Some (PList records) ->
        extract_backend w (trend_urls city) trend_params = Ok (PDict d) ->
        exists passed,
          messages_sent (trace w (get_location_trends city))
          = [trends_analysis_prompt city (PList passed)]
          /\ length passed = length records
          /\ forall i, nth_error passed i = nth_error records i).
Proof.
  intros w city max_price property_category property_type d p v records
    S T D.
  pose proof (success_indicator_true d v S T) as I. split.
  - intros L E. exists records.
    pose proof (select_properties_data d p I D) as P.
    unfold dict_get in P. rewrite L in P.
    unfold trace.
    rewrite (run_find_properties py_format lower w city max_price property_category property_type _ E), P.
    repeat split.
  - intros L E. exists records.
    unfold trace. rewrite (run_get_location_trends_data py_format lower w city d p E I D).
    unfold dict_get. rewrite L. repeat split.
Qed.

(** C10. When the response is a mapping with a truthy [success] whose
    [data] payload is a mapping without the [locations] entry,
    [get_location_trends] issues the summarization request with the
    empty list and returns the content of the summarizer's answer, not
    the no-data message; [find_properties], on a payload without the
    [properties] entry, goes on with the empty list as well. *)
Theorem C10_missing_record_key_is_empty_success :
  forall (w : world) (city : string) (max_price : float)
         (property_category property_type : string)
         (d p : list (string * pyval)) (v : pyval),
    lookup d "success" = Some v -> truthy v = true ->
    lookup d "data" = Some (PDict p) ->
    (lookup p "locations" = None ->
     extract_backend w (trend_urls city) trend_params = Ok (PDict d) ->
     run w (get_location_trends city)
     = ([EvExtract (trend_urls city) trend_params;
         EvRun (trends_analysis_prompt city (PList []))],
        result_map content
          (agent_backend w (trends_analysis_prompt city (PList [])))))
    /\ (lookup p "properties" = None ->
        extract_backend w (property_urls city)
          (property_params city max_price property_category property_type)
        = Ok (PDict d) ->
        select_properties (PDict d) = Ok (PList [])
        /\ run w (find_properties city max_price
                    property_category property_type)
           = ([EvExtract (property_urls city)
                 (property_params city max_price
                    property_category property_type);
               EvRun (analysis_prompt city (PList []) max_price)],
              result_map content
                (agent_backend w
                   (analysis_prompt city (PList []) max_price)))).
Proof.
  intros w city max_price property_category property_type d p v S T D.
  pose proof (success_indicator_true d v S T) as I. split.
  - intros L E. rewrite (run_get_location_trends_data py_format lower w city d p E I D).
    unfold dict_get. now rewrite L.
  - intros L E.
    pose proof (select_properties_data d p I D) as P.
    unfold dict_get in P. rewrite L in P. split; [exact P |].
    now rewrite (run_find_properties py_format lower w city max_price property_category property_type _ E), P.
Qed.

End ResponseHandling.

(** ** The scenarios, evaluated *)

Section Scenarios.

Abbreviation fmt := scenario_format.
Abbreviation five := (5%float).

Example scenario_A_urls :
  property_urls ascii_lower "Mumbai"
  = [ "https://www.squareyards.com/sale/property-for-sale-in-mumbai/*";
      "https://www.99acres.com/property-in-mumbai-ffid/*";
      "https://housing.com/in/buy/mumbai/mumbai" ].
Proof. reflexivity. Qed.

Example scenario_A_prompt_keeps_casing :
  containsb "Mumbai" (extraction_prompt fmt "Mumbai" five "Residential" "Flat")
  = true
  /\ containsb "mumbai"
       (extraction_prompt fmt "Mumbai" five "Residential" "Flat")
     = false.
Proof. split; vm_compute; reflexivity. Qed.

Example scenario_B_run :
  run (constant_world response_failure "report")
    (find_properties fmt ascii_lower "Mumbai" five "Residential" "Flat")
  = ([EvExtract (property_urls ascii_lower "Mumbai")
        (property_params fmt "Mumbai" five "Residential" "Flat");
      EvRun (analysis_prompt fmt "Mumbai" (PList []) five)],
     Ok "report").
Proof. vm_compute. reflexivity. Qed.

Example scenario_C_run :
  run (constant_world response_no_locations "report")
    (get_location_trends fmt ascii_lower "Mumbai")
  = ([EvExtract (trend_urls ascii_lower "Mumbai") trend_params;
      EvRun (trends_analysis_prompt fmt "Mumbai" (PList []))],
     Ok "report").
Proof. vm_compute. reflexivity. Qed.

Example non_mapping_response_run :
  run (constant_world PNone "report") (get_location_trends fmt ascii_lower "Mumbai")
  = ([EvExtract (trend_urls ascii_lower "Mumbai") trend_params],
     Ok "No price trends data available").
Proof. vm_compute. reflexivity. Qed.

End Scenarios.

(** ** The claims at concrete inputs *)

Section Instances.

Abbreviation fmt := scenario_format.
Abbreviation five := (5%float).
Abbreviation failing_world := (constant_world response_failure "report").

Lemma response_failure_lacks_success : lacks_truthy_success response_failure.
Proof.
  intros d v H L. injection H as <-. cbn in L. injection L as <-. reflexivity.
Defined.

(** A successful answer without its [data] payload is one of the failure
    shapes the claim lists, and the handling raises [KeyError] on it in
    both operations. *)
Lemma C1_missing_payload_raises :
  spec_failure_shape response_no_payload
  /\ select_properties response_no_payload = Raise (KeyError "data")
  /\ outcome (constant_world response_no_payload "report")
       (find_properties fmt ascii_lower "Mumbai" five "Residential" "Flat")
     = Raise (KeyError "data")
  /\ outcome (constant_world response_no_payload "report")
       (get_location_trends fmt ascii_lower "Mumbai")
     = Raise (KeyError "data").
Proof.
  split.
  - right. right. exists [("success", PBool true)]. split; reflexivity.
  - repeat split; vm_compute; reflexivity.
Qed.

Lemma C1_witness :
  lacks_truthy_success response_failure
  /\ select_properties response_failure = Ok (PList [])
  /\ outcome failing_world
       (find_properties fmt ascii_lower "Mumbai" five "Residential" "Flat")
     = Ok "report"
  /\ outcome failing_world (get_location_trends fmt ascii_lower "Mumbai")
     = Ok no_trends_message.
Proof.
  split; [exact response_failure_lacks_success |].
  destruct (C1_failure_yields_no_records fmt ascii_lower response_failure
              response_failure_lacks_success) as (S & F & T).
  split; [exact S |]. split.
  - exact (F failing_world "Mumbai" five "Residential" "Flat" eq_refl).
  - exact (T failing_world "Mumbai" eq_refl).
Defined.

Lemma Forall_conflict {A : Type} (P : A -> Prop) (l : list A) :
  Forall P l -> Forall (fun x => ~ P x) l -> l <> [] -> False.
Proof.
  intros H N E. destruct l as [|x l]; [now apply E |].
  inversion H as [| ? ? Hx _]. inversion N as [| ? ? Nx _]. exact (Nx Hx).
Qed.



Lemma C8_witness :
  messages_sent
    (trace failing_world
       (find_properties fmt ascii_lower "Mumbai" five "Residential" "Flat"))
  = [analysis_prompt fmt "Mumbai" (PList []) five]
  /\ messages_sent
       (trace failing_world
          (find_properties fmt (fun s => s) "Mumbai" five "Residential" "Flat"))
     = messages_sent
         (trace failing_world
            (find_properties fmt ascii_lower "Mumbai" five
               "Residential" "Flat")).
Proof.
  destruct (C8_city_lowercased_in_urls_only fmt ascii_lower failing_world
              "Mumbai" five "Residential" "Flat")
    as ((_ & M & _) & _ & I).
  split.
  - exact (M response_failure (PList []) eq_refl eq_refl).
  - exact (proj1 (proj2 (I (fun s => s) failing_world))
             response_failure eq_refl eq_refl).
Defined.

Lemma C3_witness :
  run failing_world (find_properties fmt ascii_lower "Mumbai" five "Residential" "Flat")
  = ([EvExtract (property_urls ascii_lower "Mumbai")
        (property_params fmt "Mumbai" five "Residential" "Flat");
      EvRun (analysis_prompt fmt "Mumbai" (PList []) five)],
     Ok "report")
  /\ contains "[]" (analysis_prompt fmt "Mumbai" (PList []) five).
Proof.
  exact (C3_success_false_still_summarizes fmt ascii_lower failing_world "Mumbai" five
           "Residential" "Flat" [("success", PBool false)] eq_refl eq_refl).
Defined.

Lemma C4_witness :
  run failing_world (get_location_trends fmt ascii_lower "Mumbai")
  = ([EvExtract (trend_urls ascii_lower "Mumbai") trend_params],
     Ok "No price trends data available")
  /\ messages_sent (trace failing_world (get_location_trends fmt ascii_lower "Mumbai"))
     = [].
Proof.
  exact (C4_trends_no_data_message fmt ascii_lower failing_world "Mumbai"
           response_failure eq_refl response_failure_lacks_success).
Defined.

Lemma C5_witness :
  run (constant_world response_no_locations "report")
    (get_location_trends fmt ascii_lower "Mumbai")
  = ([EvExtract (trend_urls ascii_lower "Mumbai") trend_params;
      EvRun (trends_analysis_prompt fmt "Mumbai" (PList []))],
     Ok "report")
  /\ messages_sent
       (trace (constant_world response_no_locations "report")
          (get_location_trends fmt ascii_lower "Mumbai"))
     = [trends_analysis_prompt fmt "Mumbai" (PList [])].
Proof.
  exact (C5_empty_locations_still_summarized fmt ascii_lower
           (constant_world response_no_locations "report") "Mumbai"
           [("success", PBool true); ("data", PDict [("locations", PList [])])]
           [("locations", PList [])] eq_refl eq_refl eq_refl eq_refl).
Defined.

Lemma C6_witness :
  (exists passed,
      select_properties response_with_records = Ok (PList passed)
      /\ messages_sent
           (trace (constant_world response_with_records "report")
              (find_properties fmt ascii_lower "Mumbai" five "Residential" "Flat"))
         = [analysis_prompt fmt "Mumbai" (PList passed) five]
      /\ length passed = 2
      /\ forall i, nth_error passed i = nth_error sample_records i)
  /\ (exists passed,
         messages_sent
           (trace (constant_world response_with_records "report")
              (get_location_trends fmt ascii_lower "Mumbai"))
         = [trends_analysis_prompt fmt "Mumbai" (PList passed)]
         /\ length passed = 1
         /\ forall i,
             nth_error passed i = nth_error [sample_location "Bandra"] i).
Proof.
  split.
  - exact (proj1
             (C6_records_passed_in_order fmt ascii_lower
                (constant_world response_with_records "report") "Mumbai" five
                "Residential" "Flat"
                [("success", PBool true);
                 ("data", PDict [("properties", PList sample_records);
                                 ("locations",
                                  PList [sample_location "Bandra"])]);
                 ("status", PStr "completed")]
                [("properties", PList sample_records);
                 ("locations", PList [sample_location "Bandra"])]
                (PBool true) sample_records eq_refl eq_refl eq_refl)
             eq_refl eq_refl).
  - exact (proj2
             (C6_records_passed_in_order fmt ascii_lower
                (constant_world response_with_records "report") "Mumbai" five
                "Residential" "Flat"
                [("success", PBool true);
                 ("data", PDict [("properties", PList sample_records);
                                 ("locations",
                                  PList [sample_location "Bandra"])]);
                 ("status", PStr "completed")]
                [("properties", PList sample_records);
                 ("locations", PList [sample_location "Bandra"])]
                (PBool true) [sample_location "Bandra"]
                eq_refl eq_refl eq_refl)
             eq_refl eq_refl).
Defined.

(** On a valid input the instruction does not carry the constraint in
    the claim's wording. *)
Lemma C9_spec_wording_absent :
  hd_error
    (trace failing_world
       (find_properties fmt ascii_lower "Mumbai" five "Residential" "Flat"))
  = Some (EvExtract (property_urls ascii_lower "Mumbai")
            (property_params fmt "Mumbai" five "Residential" "Flat"))
  /\ ~ contains spec_constraint_text
         (prompt (property_params fmt "Mumbai" five "Residential" "Flat")).
Proof.
  split; [reflexivity |].
  apply not_contains. vm_compute. reflexivity.
Qed.

Lemma C9_witness :
  exists params,
    hd_error
      (trace failing_world
         (find_properties fmt ascii_lower "Mumbai" five "Residential" "Flat"))
    = Some (EvExtract (property_urls ascii_lower "Mumbai") params)
    /\ contains "Residential" (prompt params)
    /\ contains "Flats" (prompt params)
    /\ contains "5.0" (prompt params)
    /\ contains "Mumbai" (prompt params)
    /\ contains "At least 3 and up to 10 properties" (prompt params).
Proof.
  destruct (C9_instruction_embeds_parameters fmt ascii_lower failing_world "Mumbai" five
              "Residential" "Flat" (or_introl eq_refl))
    as (params & H & Hc & Hl & _ & _ & Hp & Hcity & Hk).
  exists params. repeat split; assumption.
Defined.

Lemma C10_witness :
  run (constant_world response_bare_payload "report")
    (get_location_trends fmt ascii_lower "Mumbai")
  = ([EvExtract (trend_urls ascii_lower "Mumbai") trend_params;
      EvRun (trends_analysis_prompt fmt "Mumbai" (PList []))],
     Ok "report")
  /\ select_properties response_bare_payload = Ok (PList [])
  /\ run (constant_world response_bare_payload "report")
       (find_properties fmt ascii_lower "Mumbai" five "Residential" "Flat")
     = ([EvExtract (property_urls ascii_lower "Mumbai")
           (property_params fmt "Mumbai" five "Residential" "Flat");
         EvRun (analysis_prompt fmt "Mumbai" (PList []) five)],
        Ok "report").
Proof.
  destruct (C10_missing_record_key_is_empty_success fmt ascii_lower
              (constant_world response_bare_payload "report") "Mumbai" five
              "Residential" "Flat"
              [("success", PBool true); ("data", PDict [])] []
              (PBool true) eq_refl eq_refl eq_refl) as (T & P).
  split; [exact (T eq_refl eq_refl) | exact (P eq_refl eq_refl)].
Defined.

End Instances.

(** ** Further behaviour of the two operations *)

Section OperationFacts.

Variable py_format : pyval -> string.
Variable lower : string -> string.

Abbreviation property_urls := (property_urls lower).
Abbreviation trend_urls := (trend_urls lower).
Abbreviation find_properties := (find_properties py_format lower).
Abbreviation get_location_trends := (get_location_trends py_format lower).
Abbreviation property_params := (property_params py_format).
Abbreviation extraction_prompt := (extraction_prompt py_format).
Abbreviation analysis_prompt := (analysis_prompt py_format).
Abbreviation trends_analysis_prompt := (trends_analysis_prompt py_format).

Lemma run_find_properties_selected (w : world) (city : string)
    (max_price : float) (property_category property_type : string)
    (r properties : pyval) :
  extract_backend w (property_urls city)
    (property_params city max_price property_category property_type) = Ok r ->
  select_properties r = Ok properties ->
  run w (find_properties city max_price property_category property_type)
  = ([EvExtract (property_urls city)
        (property_params city max_price property_category property_type);
      EvRun (analysis_prompt city properties max_price)],
     result_map content
       (agent_backend w (analysis_prompt city properties max_price))).
Proof.
  intros E P.
  rewrite (run_find_properties py_format lower w city max_price property_category
             property_type r E).
  now rewrite P.
Qed.

Lemma run_find_properties_rejected (w : world) (city : string)
    (max_price : float) (property_category property_type : string)
    (r : pyval) (e : exn) :
  extract_backend w (property_urls city)
    (property_params city max_price property_category property_type) = Ok r ->
  select_properties r = Raise e ->
  run w (find_properties city max_price property_category property_type)
  = ([EvExtract (property_urls city)
        (property_params city max_price property_category property_type)],
     Raise e).
Proof.
  intros E P.
  rewrite (run_find_properties py_format lower w city max_price property_category
             property_type r E).
  now rewrite P.
Qed.

Lemma run_get_location_trends_rejected (w : world) (city : string)
    (r : pyval) (e : exn) :
  extract_backend w (trend_urls city) trend_params = Ok r ->
  success_indicator r = true ->
  match subscript r "data" with
  | Ok data => method_get data "locations" (PList [])
  | Raise e' => Raise e'
  end = Raise e ->
  run w (get_location_trends city)
  = ([EvExtract (trend_urls city) trend_params], Raise e).
Proof.
  intros E S H. unfold Agent.get_location_trends. cbn. rewrite E, S. cbn.
  destruct (subscript r "data") as [data|e']; cbn.
  - rewrite H. reflexivity.
  - now injection H as ->.
Qed.

(** X1. An exception of the extraction backend is not caught: either
    operation raises it unchanged after its single extraction request,
    and nothing is sent to the summarization backend. *)
Theorem X1_extraction_exception_propagates :
  forall (w : world) (city : string) (max_price : float)
         (property_category property_type : string) (e : exn),
    (extract_backend w (property_urls city)
       (property_params city max_price property_category property_type)
     = Raise e ->
     run w (find_properties city max_price property_category property_type)
     = ([EvExtract (property_urls city)
           (property_params city max_price property_category property_type)],
        Raise e)
     /\ messages_sent
          (trace w (find_properties city max_price
                      property_category property_type)) = [])
    /\ (extract_backend w (trend_urls city) trend_params = Raise e ->
        run w (get_location_trends city)
        = ([EvExtract (trend_urls city) trend_params], Raise e)
        /\ messages_sent (trace w (get_location_trends city)) = []).
Proof.
  intros w city max_price property_category property_type e. split.
  - intros E. unfold trace.
    rewrite (run_find_properties_raise py_format lower w city max_price
               property_category property_type e E).
    split; reflexivity.
  - intros E. unfold trace.
    rewrite (run_get_location_trends_raise py_format lower w city e E).
    split; reflexivity.
Qed.

(** X2. An exception of the summarization backend is not caught: when
    the handling of the response has selected the records and the
    summarizer raises on the prompt built from them, the operation raises
    the same exception, after both requests were issued. *)
Theorem X2_summarizer_exception_propagates :
  forall (w : world) (city : string) (max_price : float)
         (property_category property_type : string)
         (d p : list (string * pyval)) (v : pyval) (e : exn),
    lookup d "success" = Some v -> truthy v = true ->
    lookup d "data" = Some (PDict p) ->
    (extract_backend w (property_urls city)
       (property_params city max_price property_category property_type)
     = Ok (PDict d) ->
     agent_backend w
       (analysis_prompt city (dict_get p "properties" (PList [])) max_price)
     = Raise e ->
     outcome w (find_properties city max_price property_category property_type)
     = Raise e
     /\ length (trace w (find_properties city max_price
                           property_category property_type)) = 2)
    /\ (extract_backend w (trend_urls city) trend_params = Ok (PDict d) ->
        agent_backend w
          (trends_analysis_prompt city (dict_get p "locations" (PList [])))
        = Raise e ->
        outcome w (get_location_trends city) = Raise e
        /\ length (trace w (get_location_trends city)) = 2).
Proof.
  intros w city max_price property_category property_type d p v e S T D.
  pose proof (success_indicator_true d v S T) as I. split.
  - intros E A. unfold outcome, trace.
    rewrite (run_find_properties_selected w city max_price property_category
               property_type (PDict d) _ E (select_properties_data d p I D)).
    cbn [fst snd]. rewrite A. split; reflexivity.
  - intros E A. unfold outcome, trace.
    rewrite (run_get_location_trends_data py_format lower w city d p E I D).
    cbn [fst snd]. rewrite A. split; reflexivity.
Qed.

(** X3. A mapping with a truthy [success] but no [data] entry makes both
    operations raise [KeyError('data')] right after the extraction
    request; the summarization backend is not reached. *)
Theorem X3_missing_data_raises_key_error :
  forall (w : world) (city : string) (max_price : float)
         (property_category property_type : string)
         (d : list (string * pyval)) (v : pyval),
    lookup d "success" = Some v -> truthy v = true ->
    lookup d "data" = None ->
    (extract_backend w (property_urls city)
       (property_params city max_price property_category property_type)
     = Ok (PDict d) ->
     run w (find_properties city max_price property_category property_type)
     = ([EvExtract (property_urls city)
           (property_params city max_price property_category property_type)],
        Raise (KeyError "data")))
    /\ (extract_backend w (trend_urls city) trend_params = Ok (PDict d) ->
        run w (get_location_trends city)
        = ([EvExtract (trend_urls city) trend_params],
           Raise (KeyError "data"))).
Proof.
  intros w city max_price property_category property_type d v S T D.
  pose proof (success_indicator_true d v S T) as I. split.
  - intros E. apply (run_find_properties_rejected w _ _ _ _ (PDict d)); [exact E |].
    unfold select_properties. rewrite I. cbn. now rewrite D.
  - intros E. apply (run_get_location_trends_rejected w _ (PDict d));
      [exact E | exact I |].
    cbn. now rewrite D.
Qed.

(** X4. A mapping with a truthy [success] whose [data] entry is not
    itself a mapping (null, a list, a string, a number) makes both
    operations raise [AttributeError] on [.get], right after the
    extraction request. *)
Theorem X4_data_not_a_mapping_raises :
  forall (w : world) (city : string) (max_price : float)
         (property_category property_type : string)
         (d : list (string * pyval)) (v data : pyval),
    lookup d "success" = Some v -> truthy v = true ->
    lookup d "data" = Some data -> isinstance_dict data = false ->
    (extract_backend w (property_urls city)
       (property_params city max_price property_category property_type)
     = Ok (PDict d) ->
     run w (find_properties city max_price property_category property_type)
     = ([EvExtract (property_urls city)
           (property_params city max_price property_category property_type)],
        Raise (AttributeError "get")))
    /\ (extract_backend w (trend_urls city) trend_params = Ok (PDict d) ->
        run w (get_location_trends city)
        = ([EvExtract (trend_urls city) trend_params],
           Raise (AttributeError "get"))).
Proof.
  intros w city max_price property_category property_type d v data S T D N.
  pose proof (success_indicator_true d v S T) as I.
  assert (G : forall key, method_get data key (PList [])
                          = Raise (AttributeError "get")).
  { intros key. destruct data; try reflexivity. discriminate N. }
  split.
  - intros E. apply (run_find_properties_rejected w _ _ _ _ (PDict d)); [exact E |].
    unfold select_properties. rewrite I. cbn. rewrite D. apply G.
  - intros E. apply (run_get_location_trends_rejected w _ (PDict d));
      [exact E | exact I |].
    cbn. rewrite D. apply G.
Qed.

(** X5. The default [[]] of [.get] applies only when the record key is
    absent: whatever value the payload stores under [properties] or
    [locations], a list or not (null included), is rendered into the
    summarization prompt as it is. *)
Theorem X5_stored_value_passed_unchanged :
  forall (w : world) (city : string) (max_price : float)
         (property_category property_type : string)
         (d p : list (string * pyval)) (v stored : pyval),
    lookup d "success" = Some v -> truthy v = true ->
    lookup d "data" = Some (PDict p) ->
    (lookup p "properties" = Some stored ->
     extract_backend w (property_urls city)
       (property_params city max_price property_category property_type)
     = Ok (PDict d) ->
     select_properties (PDict d) = Ok stored
     /\ messages_sent
          (trace w (find_properties city max_price
                      property_category property_type))
        = [analysis_prompt city stored max_price])
    /\ (lookup p "locations" = Some stored ->
        extract_backend w (trend_urls city) trend_params = Ok (PDict d) ->
        messages_sent (trace w (get_location_trends city))
        = [trends_analysis_prompt city stored]).
Proof.
  intros w city max_price property_category property_type d p v stored S T D.
  pose proof (success_indicator_true d v S T) as I. split.
  - intros L E.
    pose proof (select_properties_data d p I D) as P.
    unfold dict_get in P. rewrite L in P. split; [exact P |].
    unfold trace.
    now rewrite (run_find_properties_selected w city max_price
                   property_category property_type (PDict d) stored E P).
  - intros L E. unfold trace.
    rewrite (run_get_location_trends_data py_format lower w city d p E I D).
    unfold dict_get. now rewrite L.
Qed.

End OperationFacts.

Section CallProtocol.

Variable py_format : pyval -> string.
Variable lower : string -> string.

Abbreviation property_urls := (property_urls lower).
Abbreviation trend_urls := (trend_urls lower).
Abbreviation find_properties := (find_properties py_format lower).
Abbreviation get_location_trends := (get_location_trends py_format lower).
Abbreviation property_params := (property_params py_format).
Abbreviation analysis_prompt := (analysis_prompt py_format).
Abbreviation trends_analysis_prompt := (trends_analysis_prompt py_format).

(** X6. In every world [find_properties] issues its extraction request
    first and exactly once, then at most one summarization request; and
    whenever it returns a text, that text is the content of the
    summarizer's answer to the one message it sent. *)
Theorem X6_find_properties_call_protocol :
  forall (w : world) (city : string) (max_price : float)
         (property_category property_type : string),
    let t :=
      trace w (find_properties city max_price property_category property_type)
    in
    t = EvExtract (property_urls city)
          (property_params city max_price property_category property_type)
        :: map EvRun (messages_sent t)
    /\ length (messages_sent t) <= 1
    /\ forall text,
         outcome w (find_properties city max_price
                      property_category property_type) = Ok text ->
         exists message answer,
           messages_sent t = [message]
           /\ agent_backend w message = Ok answer
           /\ text = content answer.
Proof.
  intros w city max_price property_category property_type t. subst t.
  unfold trace, outcome.
  destruct (extract_backend w (property_urls city)
              (property_params city max_price property_category property_type))
    as [r|e] eqn:E.
  - rewrite (run_find_properties py_format lower w city max_price property_category
               property_type r E).
    destruct (select_properties r) as [properties|e].
    + destruct (agent_backend w (analysis_prompt city properties max_price))
        as [answer|e] eqn:A; cbn.
      * split; [reflexivity |]. split; [lia |].
        intros text H. injection H as <-.
        exists (analysis_prompt city properties max_price), answer. auto.
      * split; [reflexivity |]. split; [lia |]. intros text H. discriminate H.
    + cbn. split; [reflexivity |]. split; [lia |]. intros text H. discriminate H.
  - rewrite (run_find_properties_raise py_format lower w city max_price
               property_category property_type e E). cbn.
    split; [reflexivity |]. split; [lia |]. intros text H. discriminate H.
Qed.

Lemma run_get_location_trends (w : world) (city : string) (r : pyval) :
  extract_backend w (trend_urls city) trend_params = Ok r ->
  run w (get_location_trends city)
  = if success_indicator r then
      match
        match subscript r "data" with
        | Ok data => method_get data "locations" (PList [])
        | Raise e => Raise e
        end
      with
      | Ok locations =>
          ([EvExtract (trend_urls city) trend_params;
            EvRun (trends_analysis_prompt city locations)],
           result_map content
             (agent_backend w (trends_analysis_prompt city locations)))
      | Raise e => ([EvExtract (trend_urls city) trend_params], Raise e)
      end
    else ([EvExtract (trend_urls city) trend_params], Ok no_trends_message).
Proof.
  intros E. unfold Agent.get_location_trends. cbn. rewrite E.
  destruct (success_indicator r); cbn; [| reflexivity].
  destruct (subscript r "data") as [data|e]; cbn; [| reflexivity].
  destruct (method_get data "locations" (PList [])) as [locations|e]; cbn;
    [| reflexivity].
  destruct (agent_backend w _) as [answer|e]; reflexivity.
Qed.

(** X7. In every world [get_location_trends] issues its extraction
    request first and exactly once, then at most one summarization
    request; a text it returns is either the fixed no-data message, with
    no message sent to the summarizer, or the content of the summarizer's
    answer to the one message it sent. *)
Theorem X7_get_location_trends_call_protocol :
  forall (w : world) (city : string),
    let t := trace w (get_location_trends city) in
    t = EvExtract (trend_urls city) trend_params :: map EvRun (messages_sent t)
    /\ length (messages_sent t) <= 1
    /\ forall text,
         outcome w (get_location_trends city) = Ok text ->
         (text = no_trends_message /\ messages_sent t = [])
         \/ exists message answer,
              messages_sent t = [message]
              /\ agent_backend w message = Ok answer
              /\ text = content answer.
Proof.
  intros w city t. subst t. unfold trace, outcome.
  destruct (extract_backend w (trend_urls city) trend_params) as [r|e] eqn:E.
  - rewrite (run_get_location_trends w city r E).
    destruct (success_indicator r).
    + destruct (match subscript r "data" with
                | Ok data => method_get data "locations" (PList [])
                | Raise e => Raise e
                end) as [locations|e].
      * destruct (agent_backend w (trends_analysis_prompt city locations))
          as [answer|e] eqn:A; cbn.
        -- split; [reflexivity |]. split; [lia |].
           intros text H. injection H as <-. right.
           exists (trends_analysis_prompt city locations), answer. auto.
        -- split; [reflexivity |]. split; [lia |].
           intros text H. discriminate H.
      * cbn. split; [reflexivity |]. split; [lia |].
        intros text H. discriminate H.
    + cbn. split; [reflexivity |]. split; [lia |].
      intros text H. injection H as <-. left. split; reflexivity.
  - rewrite (run_get_location_trends_raise py_format lower w city e E). cbn.
    split; [reflexivity |]. split; [lia |]. intros text H. discriminate H.
Qed.

(** X8. The property category and the property type reach the extraction
    instruction only: two searches for the same city and price whose
    extraction requests are answered alike send the same message to the
    summarizer, whatever their categories and types. *)
Theorem X8_summary_prompt_ignores_category_and_type :
  forall (w1 w2 : world) (city : string) (max_price : float)
         (category1 type1 category2 type2 : string) (r : pyval),
    extract_backend w1 (property_urls city)
      (property_params city max_price category1 type1) = Ok r ->
    extract_backend w2 (property_urls city)
      (property_params city max_price category2 type2) = Ok r ->
    messages_sent (trace w1 (find_properties city max_price category1 type1))
    = messages_sent (trace w2 (find_properties city max_price category2 type2)).
Proof.
  intros w1 w2 city max_price category1 type1 category2 type2 r E1 E2.
  unfold trace.
  rewrite (run_find_properties py_format lower w1 city max_price category1 type1 r E1).
  rewrite (run_find_properties py_format lower w2 city max_price category2 type2 r E2).
  destruct (select_properties r); reflexivity.
Qed.

(** X9. The URLs depend on the city through its lower-casing and on
    nothing else of it: two cities are searched under the same URLs
    exactly when [str.lower] maps them to the same text, in both
    operations. *)
Theorem X9_urls_ignore_city_casing :
  forall (w1 w2 : world) (city other : string) (max_price : float)
         (property_category property_type : string),
    (lower other = lower city <->
     urls_requested
       (trace w1 (find_properties other max_price
                    property_category property_type))
     = urls_requested
         (trace w2 (find_properties city max_price
                      property_category property_type)))
    /\ (lower other = lower city <->
        urls_requested (trace w1 (get_location_trends other))
        = urls_requested (trace w2 (get_location_trends city))).
Proof.
  intros w1 w2 city other max_price property_category property_type.
  rewrite !(urls_of_find_properties py_format lower),
    !(urls_of_get_location_trends py_format lower).
  unfold Agent.property_urls, Agent.trend_urls. cbv zeta. split; split.
  - now intros ->.
  - intros H. injection H as H _ _. now apply append_cancel_r in H.
  - now intros ->.
  - intros H. injection H as H. now apply append_cancel_r in H.
Qed.

(** X10. The type label is chosen by exact comparison with "Flat": for
    any other property type (another casing included) the extraction
    instruction names "Individual Houses", in its opening sentence and
    in its "Property Type" line. *)
Theorem X10_other_types_labelled_individual_houses :
  forall (w : world) (city : string) (max_price : float)
         (property_category property_type : string),
    property_type <> "Flat" ->
    exists params,
      hd_error (trace w (find_properties city max_price
                           property_category property_type))
      = Some (EvExtract (property_urls city) params)
      /\ contains (" Individual Houses in " ++ city) (prompt params)
      /\ contains "- Property Type: Individual Houses" (prompt params).
Proof.
  intros w city max_price property_category property_type Hty.
  destruct (trace_find_properties_head py_format lower w city max_price
              property_category property_type) as (rest & -> & _).
  eexists. split; [reflexivity |].
  cbn [prompt Agent.property_params]. unfold Agent.extraction_prompt.
  assert (L : property_type_prompt property_type = "Individual Houses").
  { unfold property_type_prompt.
    destruct (String.eqb_spec property_type "Flat"); [contradiction | reflexivity]. }
  rewrite !L. split.
  - do 2 apply contains_skip.
    exists "", (" under " ++ py_format (PFloat max_price) ++ " crores." ++ nl ++
       "                " ++ nl ++
       "                Data Extraction Criteria:" ++ nl ++
       "                - Category: " ++ property_category ++ nl ++
       "                - Property Type: " ++ "Individual Houses" ++ nl ++
       "                - Maximum Price: " ++ py_format (PFloat max_price) ++ " " ++ nl ++
       "                - Location: " ++ city ++ nl ++
       "                - At least 3 and up to 10 properties" ++ nl ++
       "                - Include key details like name, price, location, and amenities" ++ nl ++
       "                " ++ nl ++
       "                Return the data in JSON format based on the schema." ++ nl ++
       "                ").
    reflexivity.
  - do 17 apply contains_skip.
    rewrite <- append_assoc. apply contains_within. reflexivity.
Qed.

End CallProtocol.

(** ** The session state and one run of the script *)

Section SessionFacts.

Lemma new_agent_ok (fk ok mid : string) :
  fk <> "" -> new_agent fk ok mid = Ok (init fk ok mid).
Proof.
  intros H. unfold new_agent, new_FirecrawlApp.
  apply String.eqb_neq in H. now rewrite H.
Qed.

Lemma new_agent_empty_key (ok mid : string) :
  new_agent "" ok mid = Raise (ValueError "No API key provided").
Proof. reflexivity. Qed.

(** X11. [initialize_agent] never replaces an agent: once it has
    succeeded the session holds an agent, a second call changes nothing,
    and when the session already held an agent the first call changed
    nothing either, whatever keys and model the session holds by then. *)
Theorem X11_initialize_agent_idempotent :
  forall (ss ss' : session_state),
    initialize_agent ss = Ok ss' ->
    initialize_agent ss' = Ok ss'
    /\ (exists a, property_agent ss' = Some a)
    /\ (forall a, property_agent ss = Some a -> ss' = ss)
    /\ model_id ss' = model_id ss
    /\ firecrawl_key ss' = firecrawl_key ss
    /\ openai_key ss' = openai_key ss.
Proof.
  intros ss ss' H. unfold initialize_agent in H.
  destruct (property_agent ss) as [a|] eqn:A.
  - injection H as <-. unfold initialize_agent. rewrite A.
    split; [reflexivity |]. split; [now exists a |].
    split; [intros a' _; reflexivity |].
    repeat split.
  - destruct (firecrawl_key ss) as [fk|] eqn:F; cbn in H; [| discriminate H].
    destruct (openai_key ss) as [ok|] eqn:O; cbn in H; [| discriminate H].
    destruct (model_id ss) as [mid|] eqn:M; cbn in H; [| discriminate H].
    destruct (new_agent fk ok mid) as [built|e]; [| discriminate H].
    injection H as <-.
    split; [reflexivity |]. split; [now exists built |].
    split; [intros a Ha; discriminate Ha |].
    cbn. auto.
Qed.


End SessionFacts.

Section ScriptFacts.

Variable py_format : pyval -> string.
Variable lower : string -> string.

Abbreviation property_urls := (property_urls lower).
Abbreviation trend_urls := (trend_urls lower).
Abbreviation main := (main py_format lower).
Abbreviation search inp :=
  (find_properties py_format lower (in_city inp) (in_max_price inp)
     (in_property_category inp) (in_property_type inp)).

(** Running a sequence: the requests of the first part, then those of
    the second; an exception of the first part ends the run. *)
Lemma run_bind {A B : Type} (w : world) (p : prog A) (f : A -> prog B) :
  run w (prog_bind p f)
  = match run w p with
    | (t, Ok a) => ((t ++ fst (run w (f a)))%list, snd (run w (f a)))
    | (t, Raise e) => (t, Raise e)
    end.
Proof.
  induction p as [a|e|urls params k IH|message k IH]; cbn.
  - now destruct (run w (f a)).
  - reflexivity.
  - destruct (extract_backend w urls params) as [r|e]; [| reflexivity].
    rewrite IH. destruct (run w (k r)) as [t [a|e]]; [| reflexivity].
    now destruct (run w (f a)).
  - destruct (agent_backend w message) as [r|e]; [| reflexivity].
    rewrite IH. destruct (run w (k r)) as [t [a|e]]; [| reflexivity].
    now destruct (run w (f a)).
Qed.

Lemma truthy_str (s : string) : truthy (PStr s) = true <-> s <> "".
Proof.
  cbn. rewrite negb_true_iff. apply String.eqb_neq.
Qed.

(** The session state the sidebar block leaves. *)
Lemma sidebar_result (ss : session_state) (inp : form_inputs) :
  sidebar ss inp
  = Ok (if andb (truthy (PStr (in_firecrawl_key inp)))
                (truthy (PStr (in_openai_key inp)))
        then
          let stored :=
            set_openai_key
              (set_firecrawl_key (set_model_id ss (in_model_id inp))
                 (in_firecrawl_key inp))
              (in_openai_key inp) in
          match property_agent ss with
          | Some _ => stored
          | None =>
              set_property_agent stored
                (init (in_firecrawl_key inp) (in_openai_key inp)
                   (in_model_id inp))
          end
        else set_model_id ss (in_model_id inp)).
Proof.
  unfold sidebar.
  destruct (andb (truthy (PStr (in_firecrawl_key inp)))
                 (truthy (PStr (in_openai_key inp)))) eqn:B; [| reflexivity].
  apply andb_true_iff in B. destruct B as [F _]. apply truthy_str in F.
  unfold initialize_agent.
  cbn [property_agent set_openai_key set_firecrawl_key set_model_id
       firecrawl_key openai_key model_id get_attr].
  destruct (property_agent ss); [reflexivity |].
  now rewrite (new_agent_ok _ _ _ F).
Qed.

Lemma sidebar_agent (ss ss1 : session_state) (inp : form_inputs) :
  sidebar ss inp = Ok ss1 ->
  model_id ss1 = Some (in_model_id inp)
  /\ property_agent ss1
     = match property_agent ss with
       | Some a => Some a
       | None =>
           if andb (truthy (PStr (in_firecrawl_key inp)))
                   (truthy (PStr (in_openai_key inp)))
           then Some (init (in_firecrawl_key inp) (in_openai_key inp)
                        (in_model_id inp))
           else None
       end.
Proof.
  rewrite sidebar_result.
  remember (andb (truthy (PStr (in_firecrawl_key inp)))
                 (truthy (PStr (in_openai_key inp)))) as both.
  intros H. injection H as <-.
  destruct both; destruct (property_agent ss) eqn:A; cbn; rewrite ?A;
    split; reflexivity.
Qed.

(** One run of the script, by cases on the state the sidebar leaves. *)
Lemma run_main (w : world) (ss ss1 : session_state) (inp : form_inputs) :
  sidebar ss inp = Ok ss1 ->
  run w (main ss inp)
  = match property_agent ss1 with
    | None => ([], Ok (ss1, (sidebar_elements ++ [missing_keys_warning])%list))
    | Some _ =>
        if in_search inp then
          (trace w (search inp),
           result_map
             (fun text =>
                (ss1,
                 (sidebar_elements ++ form_elements
                  ++ [Page (Spinner "Processing..."); Page (Markdown text)])%list))
             (outcome w (search inp)))
        else ([], Ok (ss1, (sidebar_elements ++ form_elements)%list))
    end.
Proof.
  intros H. unfold App.main. rewrite H.
  cbn [lift_result bind ret Monad_prog prog_bind].
  destruct (property_agent ss1); [| reflexivity].
  destruct (in_search inp); [| reflexivity].
  rewrite run_bind. unfold trace, outcome.
  destruct (run w (search inp)) as [t [text|e]]; cbn [fst snd run result_map];
    [| reflexivity].
  now rewrite app_nil_r.
Qed.

(** X13. With no agent in the session and at least one of the two key
    fields empty, a run of the script stores the chosen model and nothing
    else (a key typed alone is not stored), renders the sidebar and the
    warning, and stops there: no request reaches a backend, whether or
    not a search was asked for. *)
Theorem X13_main_without_credentials_warns :
  forall (w : world) (ss : session_state) (inp : form_inputs),
    property_agent ss = None ->
    in_firecrawl_key inp = "" \/ in_openai_key inp = "" ->
    run w (main ss inp)
    = ([], Ok (set_model_id ss (in_model_id inp),
               (sidebar_elements ++ [missing_keys_warning])%list)).
Proof.
  intros w ss inp A K.
  assert (B : andb (truthy (PStr (in_firecrawl_key inp)))
                   (truthy (PStr (in_openai_key inp))) = false).
  { destruct K as [-> | ->]; [reflexivity | apply andb_false_r]. }
  pose proof (sidebar_result ss inp) as S. rewrite B in S.
  rewrite (run_main w ss _ inp S). cbn [property_agent set_model_id].
  now rewrite A.
Qed.

(** X14. A run in which the search button was not pressed completes and
    sends nothing to either backend. *)
Theorem X14_main_without_click_is_silent :
  forall (w : world) (ss : session_state) (inp : form_inputs),
    in_search inp = false ->
    trace w (main ss inp) = []
    /\ exists ss1 ui,
         sidebar ss inp = Ok ss1 /\ outcome w (main ss inp) = Ok (ss1, ui).
Proof.
  intros w ss inp C. pose proof (sidebar_result ss inp) as S.
  unfold trace, outcome. rewrite (run_main w ss _ inp S), C.
  match type of S with _ = Ok ?s => set (ss1 := s) in * end.
  destruct (property_agent ss1); (split; [reflexivity |]);
    eexists ss1, _; split; try exact S; reflexivity.
Qed.

(** X15. When the search button is pressed and an agent is available
    (already in the session, or created in this run from two filled key
    fields), the run issues exactly the requests of [find_properties] on
    the form's values; an exception of the search ends the run, and a
    returned text is rendered as the last element, after the spinner. *)
Theorem X15_main_search_runs_find_properties :
  forall (w : world) (ss : session_state) (inp : form_inputs),
    in_search inp = true ->
    (exists a, property_agent ss = Some a)
    \/ (in_firecrawl_key inp <> "" /\ in_openai_key inp <> "") ->
    trace w (main ss inp) = trace w (search inp)
    /\ (forall e, outcome w (search inp) = Raise e ->
                  outcome w (main ss inp) = Raise e)
    /\ (forall text, outcome w (search inp) = Ok text ->
          exists ss1,
            sidebar ss inp = Ok ss1
            /\ outcome w (main ss inp)
               = Ok (ss1,
                     (sidebar_elements ++ form_elements
                      ++ [Page (Spinner "Processing...");
                          Page (Markdown text)])%list)).
Proof.
  intros w ss inp C H. pose proof (sidebar_result ss inp) as S.
  match type of S with _ = Ok ?s => set (ss1 := s) in * end.
  destruct (sidebar_agent ss ss1 inp S) as (_ & P).
  assert (Q : exists a, property_agent ss1 = Some a).
  { destruct H as [(a & Ha) | (F & O)].
    - rewrite Ha in P. now exists a.
    - apply truthy_str in F. apply truthy_str in O. rewrite F, O in P.
      destruct (property_agent ss) as [a|]; eexists; exact P. }
  destruct Q as (a & Q).
  unfold trace, outcome. rewrite (run_main w ss ss1 inp S), Q, C.
  cbn [fst snd]. unfold trace, outcome. split; [reflexivity |]. split.
  - intros e E. unfold outcome in E. now rewrite E.
  - intros text E. unfold outcome in E. rewrite E. exists ss1.
    split; [exact S | reflexivity].
Qed.

(** X16. The script's "Please configure API keys first" branch is never
    taken: no run that completes renders an error element. *)
Theorem X16_main_never_renders_error :
  forall (w : world) (ss ss' : session_state) (inp : form_inputs)
         (ui : list element) (text : string),
    outcome w (main ss inp) = Ok (ss', ui) ->
    ~ In (Page (Error text)) ui /\ ~ In (Sidebar (Error text)) ui.
Proof.
  intros w ss ss' inp ui text H. pose proof (sidebar_result ss inp) as S.
  unfold outcome in H. rewrite (run_main w ss _ inp S) in H.
  match type of S with _ = Ok ?s => set (ss1 := s) in * end.
  destruct (property_agent ss1).
  - destruct (in_search inp).
    + cbn [snd] in H. destruct (outcome w (search inp)) as [t|e];
        cbn in H; [| discriminate H].
      injection H as _ <-.
      split; intros I; cbn in I;
        repeat (destruct I as [I|I]; [discriminate I |]); exact I.
    + injection H as _ <-.
      split; intros I; cbn in I;
        repeat (destruct I as [I|I]; [discriminate I |]); exact I.
  - injection H as _ <-.
    split; intros I; cbn in I;
      repeat (destruct I as [I|I]; [discriminate I |]); exact I.
Qed.

(** X17. The script only ever searches properties: the requests of a
    run are none, or those of [find_properties] on the form's values;
    the price-trends request of [get_location_trends] is never issued,
    for any city. *)
Theorem X17_main_never_requests_trends :
  forall (w : world) (ss : session_state) (inp : form_inputs),
    (trace w (main ss inp) = [] \/ trace w (main ss inp) = trace w (search inp))
    /\ forall city, ~ In (EvExtract (trend_urls city) trend_params)
                         (trace w (main ss inp)).
Proof.
  intros w ss inp. pose proof (sidebar_result ss inp) as S.
  assert (T : trace w (main ss inp) = []
              \/ trace w (main ss inp) = trace w (search inp)).
  { unfold trace at 1 2. rewrite (run_main w ss _ inp S).
    match type of S with _ = Ok ?s => set (ss1 := s) in * end.
    destruct (property_agent ss1); [| now left].
    destruct (in_search inp); [now right | now left]. }
  split; [exact T |]. intros city I.
  destruct T as [T | T]; rewrite T in I; [exact I |].
  destruct (trace_find_properties_head py_format lower w (in_city inp)
              (in_max_price inp) (in_property_category inp)
              (in_property_type inp)) as (rest & R & _ & [-> | (p & ->)]);
    rewrite R in I; cbn in I.
  - destruct I as [I | []].
    apply (f_equal (fun ev => match ev with
                              | EvExtract _ ps => model_name (schema ps)
                              | EvRun _ => ""
                              end)) in I.
    discriminate I.
  - destruct I as [I | [I | []]]; [| discriminate I].
    apply (f_equal (fun ev => match ev with
                              | EvExtract _ ps => model_name (schema ps)
                              | EvRun _ => ""
                              end)) in I.
    discriminate I.
Qed.

(** X18. An agent in the session outlives every later run: the sidebar
    block keeps that very agent, whatever keys and model are entered,
    while it stores the newly chosen model beside it; such a run shows
    no missing-keys warning. *)
Theorem X18_existing_agent_is_kept :
  forall (w : world) (ss : session_state) (inp : form_inputs)
         (a : JunoMonteraRealEstateAgent),
    property_agent ss = Some a ->
    exists ss1,
      sidebar ss inp = Ok ss1
      /\ property_agent ss1 = Some a
      /\ model_id ss1 = Some (in_model_id inp)
      /\ forall ss' ui,
           outcome w (main ss inp) = Ok (ss', ui) ->
           ss' = ss1 /\ ~ In missing_keys_warning ui.
Proof.
  intros w ss inp a A. pose proof (sidebar_result ss inp) as S.
  match type of S with _ = Ok ?s => set (ss1 := s) in * end.
  destruct (sidebar_agent ss ss1 inp S) as (M & P). rewrite A in P.
  exists ss1. split; [exact S |]. split; [exact P |]. split; [exact M |].
  intros ss' ui H. unfold outcome in H.
  rewrite (run_main w ss ss1 inp S), P in H.
  destruct (in_search inp).
  - cbn [snd] in H. destruct (outcome w (search inp)) as [t|e];
      cbn in H; [| discriminate H].
    injection H as <- <-. split; [reflexivity |].
    intros I; cbn in I;
      repeat (destruct I as [I|I]; [discriminate I |]); exact I.
  - injection H as <- <-. split; [reflexivity |].
    intros I; cbn in I;
      repeat (destruct I as [I|I]; [discriminate I |]); exact I.
Qed.

(** X19. With no agent in the session and both key fields filled, the
    sidebar block stores the two keys and the chosen model and creates
    the agent from exactly these three values; it does not raise. *)
Theorem X19_both_keys_create_agent :
  forall (ss : session_state) (inp : form_inputs),
    property_agent ss = None ->
    in_firecrawl_key inp <> "" -> in_openai_key inp <> "" ->
    exists ss1,
      sidebar ss inp = Ok ss1
      /\ property_agent ss1
         = Some (init (in_firecrawl_key inp) (in_openai_key inp)
                   (in_model_id inp))
      /\ firecrawl_key ss1 = Some (in_firecrawl_key inp)
      /\ openai_key ss1 = Some (in_openai_key inp)
      /\ model_id ss1 = Some (in_model_id inp).
Proof.
  intros ss inp A F O. pose proof (sidebar_result ss inp) as S.
  apply truthy_str in F. apply truthy_str in O. rewrite F, O, A in S.
  eexists. split; [exact S |]. cbn. repeat split.
Qed.

(** X20. Two runs in a row: after a run whose two key fields were
    filled, a later run searches on a click even when its key fields are
    empty, and it keeps the agent of the first run. *)
Theorem X20_agent_survives_cleared_keys :
  forall (w : world) (ss ss1 : session_state) (inp1 inp2 : form_inputs),
    in_firecrawl_key inp1 <> "" -> in_openai_key inp1 <> "" ->
    sidebar ss inp1 = Ok ss1 ->
    in_search inp2 = true ->
    trace w (main ss1 inp2) = trace w (search inp2)
    /\ exists a ss2,
         property_agent ss1 = Some a
         /\ sidebar ss1 inp2 = Ok ss2
         /\ property_agent ss2 = Some a.
Proof.
  intros w ss ss1 inp1 inp2 F O S1 C.
  destruct (sidebar_agent ss ss1 inp1 S1) as (_ & P1).
  apply truthy_str in F. apply truthy_str in O. rewrite F, O in P1. cbn in P1.
  assert (Q : exists a, property_agent ss1 = Some a)
    by (destruct (property_agent ss); eexists; exact P1).
  destruct Q as (a & Q).
  pose proof (sidebar_result ss1 inp2) as S2.
  match type of S2 with _ = Ok ?s => set (ss2 := s) in * end.
  destruct (sidebar_agent ss1 ss2 inp2 S2) as (_ & P2). rewrite Q in P2.
  split.
  - unfold trace at 1. now rewrite (run_main w ss1 ss2 inp2 S2), P2, C.
  - exists a, ss2. auto.
Qed.

(** X21. A run of the script raises only what the search raises: if it
    ends in an exception, the search button was pressed and
    [find_properties] raised that exception; in particular the agent's
    initialization inside the script never fails. *)
Theorem X21_main_raises_only_from_search :
  forall (w : world) (ss : session_state) (inp : form_inputs) (e : exn),
    outcome w (main ss inp) = Raise e ->
    in_search inp = true /\ outcome w (search inp) = Raise e.
Proof.
  intros w ss inp e H. pose proof (sidebar_result ss inp) as S.
  unfold outcome in H. rewrite (run_main w ss _ inp S) in H.
  match type of S with _ = Ok ?s => set (ss1 := s) in * end.
  destruct (property_agent ss1); [| discriminate H].
  destruct (in_search inp); [| discriminate H].
  split; [reflexivity |]. cbn [snd] in H.
  destruct (outcome w (search inp)) as [t|e']; cbn in H; [discriminate H |].
  now injection H as ->.
Qed.

End ScriptFacts.

(** ** The further properties at concrete inputs *)

Section FurtherInstances.

Abbreviation fmt := scenario_format.
Abbreviation five := (5%float).
Abbreviation timeout := (BackendError "timeout").
Abbreviation records_world := (constant_world response_with_records "report").
Abbreviation search_mumbai :=
  (find_properties fmt ascii_lower "Mumbai" five "Residential" "Flat").
Abbreviation payload_with_records :=
  [("properties", PList sample_records);
   ("locations", PList [sample_location "Bandra"])].
Abbreviation fresh_session :=
  {| model_id := Some "gpt-4o"; firecrawl_key := Some "fc-1";
     openai_key := Some "sk-1";
     property_agent := Some (init "fc-1" "sk-1" "gpt-4o") |}.

Lemma X1_witness :
  run (extraction_down_world timeout) search_mumbai
  = ([EvExtract (property_urls ascii_lower "Mumbai")
        (property_params fmt "Mumbai" five "Residential" "Flat")],
     Raise timeout)
  /\ run (extraction_down_world timeout) (get_location_trends fmt ascii_lower "Mumbai")
     = ([EvExtract (trend_urls ascii_lower "Mumbai") trend_params], Raise timeout).
Proof.
  destruct (X1_extraction_exception_propagates fmt ascii_lower
              (extraction_down_world timeout) "Mumbai" five
              "Residential" "Flat" timeout) as (F & T).
  split; [exact (proj1 (F eq_refl)) | exact (proj1 (T eq_refl))].
Defined.

Lemma X2_witness :
  outcome (summarizer_down_world response_with_records timeout) search_mumbai
  = Raise timeout
  /\ outcome (summarizer_down_world response_with_records timeout)
       (get_location_trends fmt ascii_lower "Mumbai")
     = Raise timeout.
Proof.
  destruct (X2_summarizer_exception_propagates fmt ascii_lower
              (summarizer_down_world response_with_records timeout)
              "Mumbai" five "Residential" "Flat"
              [("success", PBool true); ("data", PDict payload_with_records);
               ("status", PStr "completed")]
              payload_with_records (PBool true) timeout
              eq_refl eq_refl eq_refl) as (F & T).
  split; [exact (proj1 (F eq_refl eq_refl)) | exact (proj1 (T eq_refl eq_refl))].
Defined.

Lemma X3_witness :
  outcome (constant_world response_no_payload "report") search_mumbai
  = Raise (KeyError "data")
  /\ outcome (constant_world response_no_payload "report")
       (get_location_trends fmt ascii_lower "Mumbai")
     = Raise (KeyError "data").
Proof.
  destruct (X3_missing_data_raises_key_error fmt ascii_lower
              (constant_world response_no_payload "report")
              "Mumbai" five "Residential" "Flat"
              [("success", PBool true)] (PBool true)
              eq_refl eq_refl eq_refl) as (F & T).
  split; [exact (f_equal snd (F eq_refl)) | exact (f_equal snd (T eq_refl))].
Defined.

Lemma X4_witness :
  outcome (constant_world response_null_payload "report") search_mumbai
  = Raise (AttributeError "get")
  /\ outcome (constant_world response_null_payload "report")
       (get_location_trends fmt ascii_lower "Mumbai")
     = Raise (AttributeError "get").
Proof.
  destruct (X4_data_not_a_mapping_raises fmt ascii_lower
              (constant_world response_null_payload "report")
              "Mumbai" five "Residential" "Flat"
              [("success", PBool true); ("data", PNone)] (PBool true) PNone
              eq_refl eq_refl eq_refl eq_refl) as (F & T).
  split; [exact (f_equal snd (F eq_refl)) | exact (f_equal snd (T eq_refl))].
Defined.

Lemma X5_witness :
  select_properties response_null_records = Ok PNone
  /\ messages_sent
       (trace (constant_world response_null_records "report") search_mumbai)
     = [analysis_prompt fmt "Mumbai" PNone five]
  /\ messages_sent
       (trace (constant_world response_null_records "report")
          (get_location_trends fmt ascii_lower "Mumbai"))
     = [trends_analysis_prompt fmt "Mumbai" PNone].
Proof.
  destruct (X5_stored_value_passed_unchanged fmt ascii_lower
              (constant_world response_null_records "report")
              "Mumbai" five "Residential" "Flat"
              [("success", PBool true);
               ("data", PDict [("properties", PNone); ("locations", PNone)])]
              [("properties", PNone); ("locations", PNone)] (PBool true) PNone
              eq_refl eq_refl eq_refl) as (F & T).
  destruct (F eq_refl eq_refl) as (S & M).
  split; [exact S |]. split; [exact M | exact (T eq_refl eq_refl)].
Defined.

Lemma X6_witness :
  exists message answer,
    messages_sent (trace records_world search_mumbai) = [message]
    /\ agent_backend records_world message = Ok answer
    /\ "report" = content answer.
Proof.
  exact (proj2 (proj2 (X6_find_properties_call_protocol fmt ascii_lower records_world
                         "Mumbai" five "Residential" "Flat"))
           "report" eq_refl).
Defined.

Lemma X7_witness :
  ("No price trends data available" = no_trends_message
   /\ messages_sent
        (trace (constant_world response_failure "report")
           (get_location_trends fmt ascii_lower "Mumbai")) = [])
  \/ exists message answer,
       messages_sent
         (trace (constant_world response_failure "report")
            (get_location_trends fmt ascii_lower "Mumbai")) = [message]
       /\ agent_backend (constant_world response_failure "report") message
          = Ok answer
       /\ "No price trends data available" = content answer.
Proof.
  exact (proj2 (proj2 (X7_get_location_trends_call_protocol fmt ascii_lower
                         (constant_world response_failure "report") "Mumbai"))
           "No price trends data available" eq_refl).
Defined.

Lemma X8_witness :
  messages_sent
    (trace records_world
       (find_properties fmt ascii_lower "Mumbai" five "Residential" "Flat"))
  = messages_sent
      (trace records_world
         (find_properties fmt ascii_lower "Mumbai" five "Commercial" "Individual House")).
Proof.
  exact (X8_summary_prompt_ignores_category_and_type fmt ascii_lower records_world
           records_world "Mumbai" five "Residential" "Flat"
           "Commercial" "Individual House" response_with_records
           eq_refl eq_refl).
Defined.

Lemma X9_witness :
  urls_requested
    (trace records_world
       (find_properties fmt ascii_lower "MUMBAI" five "Residential" "Flat"))
  = urls_requested (trace records_world search_mumbai)
  /\ urls_requested
       (trace records_world (get_location_trends fmt ascii_lower "MUMBAI"))
     = urls_requested
         (trace records_world (get_location_trends fmt ascii_lower "Mumbai")).
Proof.
  destruct (X9_urls_ignore_city_casing fmt ascii_lower records_world
              records_world "Mumbai" "MUMBAI" five "Residential" "Flat")
    as (F & T).
  split; [exact (proj1 F eq_refl) | exact (proj1 T eq_refl)].
Defined.

Lemma X10_witness :
  "flat" <> "Flat"
  /\ exists params,
       hd_error
         (trace records_world
            (find_properties fmt ascii_lower "Mumbai" five "Residential" "flat"))
       = Some (EvExtract (property_urls ascii_lower "Mumbai") params)
       /\ contains " Individual Houses in Mumbai" (prompt params)
       /\ contains "- Property Type: Individual Houses" (prompt params).
Proof.
  assert (N : "flat" <> "Flat") by discriminate.
  split; [exact N |].
  exact (X10_other_types_labelled_individual_houses fmt ascii_lower records_world
           "Mumbai" five "Residential" "flat" N).
Defined.

Lemma X11_witness :
  initialize_agent fresh_session = Ok fresh_session
  /\ (exists a, property_agent fresh_session = Some a)
  /\ (forall a,
         property_agent
           {| model_id := Some "gpt-4o"; firecrawl_key := Some "fc-1";
              openai_key := Some "sk-1"; property_agent := None |} = Some a ->
         fresh_session
         = {| model_id := Some "gpt-4o"; firecrawl_key := Some "fc-1";
              openai_key := Some "sk-1"; property_agent := None |})
  /\ model_id fresh_session = Some "gpt-4o"
  /\ firecrawl_key fresh_session = Some "fc-1"
  /\ openai_key fresh_session = Some "sk-1".
Proof.
  exact (X11_initialize_agent_idempotent
           {| model_id := Some "gpt-4o"; firecrawl_key := Some "fc-1";
              openai_key := Some "sk-1"; property_agent := None |}
           fresh_session eq_refl).
Defined.


Lemma X13_witness :
  run records_world (main fmt ascii_lower empty_session (sample_inputs "fc-1" "" true))
  = ([], Ok (set_model_id empty_session "gpt-4o",
             (sidebar_elements ++ [missing_keys_warning])%list)).
Proof.
  exact (X13_main_without_credentials_warns fmt ascii_lower records_world empty_session
           (sample_inputs "fc-1" "" true) eq_refl (or_intror eq_refl)).
Defined.

Lemma X14_witness :
  trace records_world
    (main fmt ascii_lower empty_session (sample_inputs "fc-1" "sk-1" false)) = []
  /\ exists ss1 ui,
       sidebar empty_session (sample_inputs "fc-1" "sk-1" false) = Ok ss1
       /\ outcome records_world
            (main fmt ascii_lower empty_session (sample_inputs "fc-1" "sk-1" false))
          = Ok (ss1, ui).
Proof.
  exact (X14_main_without_click_is_silent fmt ascii_lower records_world empty_session
           (sample_inputs "fc-1" "sk-1" false) eq_refl).
Defined.

Lemma X15_witness :
  trace records_world
    (main fmt ascii_lower empty_session (sample_inputs "fc-1" "sk-1" true))
  = trace records_world search_mumbai
  /\ outcome records_world
       (main fmt ascii_lower empty_session (sample_inputs "fc-1" "sk-1" true))
     = Ok (fresh_session,
           (sidebar_elements ++ form_elements
            ++ [Page (Spinner "Processing..."); Page (Markdown "report")])%list).
Proof.
  assert (F : "fc-1" <> "") by discriminate.
  assert (O : "sk-1" <> "") by discriminate.
  destruct (X15_main_search_runs_find_properties fmt ascii_lower records_world
              empty_session (sample_inputs "fc-1" "sk-1" true) eq_refl
              (or_intror (conj F O))) as (T & _ & R).
  split; [exact T |].
  destruct (R "report" eq_refl) as (ss1 & S & M).
  injection S as <-. exact M.
Defined.

Lemma X16_witness :
  ~ In (Page (Error "Please configure API keys first"))
      (sidebar_elements ++ form_elements
       ++ [Page (Spinner "Processing..."); Page (Markdown "report")])%list
  /\ ~ In (Sidebar (Error "Please configure API keys first"))
         (sidebar_elements ++ form_elements
          ++ [Page (Spinner "Processing..."); Page (Markdown "report")])%list.
Proof.
  exact (X16_main_never_renders_error fmt ascii_lower records_world empty_session
           fresh_session (sample_inputs "fc-1" "sk-1" true) _
           "Please configure API keys first" eq_refl).
Defined.

Lemma X17_witness :
  ~ In (EvExtract (trend_urls ascii_lower "Mumbai") trend_params)
      (trace records_world
         (main fmt ascii_lower empty_session (sample_inputs "fc-1" "sk-1" true))).
Proof.
  exact (proj2 (X17_main_never_requests_trends fmt ascii_lower records_world empty_session
                  (sample_inputs "fc-1" "sk-1" true))
           "Mumbai").
Defined.

Lemma X18_witness :
  exists ss1,
    sidebar session_with_agent (sample_inputs "fc-1" "sk-1" false) = Ok ss1
    /\ property_agent ss1 = Some (init "fc-old" "sk-old" "o3-mini")
    /\ model_id ss1 = Some "gpt-4o".
Proof.
  destruct (X18_existing_agent_is_kept fmt ascii_lower records_world session_with_agent
              (sample_inputs "fc-1" "sk-1" false)
              (init "fc-old" "sk-old" "o3-mini") eq_refl)
    as (ss1 & S & P & M & _).
  exists ss1. auto.
Defined.

Lemma X19_witness :
  exists ss1,
    sidebar empty_session (sample_inputs "fc-1" "sk-1" false) = Ok ss1
    /\ property_agent ss1 = Some (init "fc-1" "sk-1" "gpt-4o")
    /\ firecrawl_key ss1 = Some "fc-1"
    /\ openai_key ss1 = Some "sk-1"
    /\ model_id ss1 = Some "gpt-4o".
Proof.
  assert (F : "fc-1" <> "") by discriminate.
  assert (O : "sk-1" <> "") by discriminate.
  exact (X19_both_keys_create_agent empty_session
           (sample_inputs "fc-1" "sk-1" false) eq_refl F O).
Defined.

Lemma X20_witness :
  trace records_world (main fmt ascii_lower fresh_session (sample_inputs "" "" true))
  = trace records_world search_mumbai
  /\ exists a ss2,
       property_agent fresh_session = Some a
       /\ sidebar fresh_session (sample_inputs "" "" true) = Ok ss2
       /\ property_agent ss2 = Some a.
Proof.
  assert (F : "fc-1" <> "") by discriminate.
  assert (O : "sk-1" <> "") by discriminate.
  exact (X20_agent_survives_cleared_keys fmt ascii_lower records_world empty_session
           fresh_session (sample_inputs "fc-1" "sk-1" false)
           (sample_inputs "" "" true) F O eq_refl eq_refl).
Defined.

Lemma X21_witness :
  in_search (sample_inputs "fc-1" "sk-1" true) = true
  /\ outcome (extraction_down_world timeout) search_mumbai = Raise timeout.
Proof.
  exact (X21_main_raises_only_from_search fmt ascii_lower (extraction_down_world timeout)
           empty_session (sample_inputs "fc-1" "sk-1" true) timeout eq_refl).
Defined.

End FurtherInstances.
